(** * ai-event-finder: the retrieval-augmented query pipeline and the
      optimistic-concurrency wrappers, embedded in Rocq.

    The development follows the Python sources:

    - [app/repositories/chat_history_repository_impl.py]  (module [ChatHistory])
    - [app/services/embedding/embedding_service_impl.py]  (module [Embedding])
    - [app/repositories/event_repository_impl.py]         (module [EventRepo])
    - [app/services/model/model_service_impl.py]          (module [ModelService])
    - [app/util/transaction_util.py]                      (module [TransactionUtil])

    Python text is modelled by [string], holding the UTF-8 encoding of the
    text; [str.strip], [str.isspace] and [int] are spelled out on the ASCII
    range (whitespace and digits outside ASCII are ordinary characters
    here). Python [int] is [Z]. Dictionaries are [gmap]s. *)

From Stdlib Require Import ZArith QArith List String Ascii Lia.
From stdpp Require Import base option gmap strings list list_numbers sorting pretty.

Set Warnings "-register-all".

Local Open Scope string_scope.
Local Open Scope Z_scope.

(* ===================================================================== *)
(** * Python primitives used by the sources                               *)
(* ===================================================================== *)

Module Py.

(** [str.isspace] on one character: the ASCII code points that Python
    treats as whitespace (TAB..CR, FS..US, SPACE). *)
Definition isspace (c : ascii) : bool :=
  let n := Z.of_N (N_of_ascii c) in
  ((9 <=? n) && (n <=? 13)) || ((28 <=? n) && (n <=? 32)).

Fixpoint lstrip (s : string) : string :=
  match s with
  | EmptyString => EmptyString
  | String c s' => if isspace c then lstrip s' else s
  end.

Fixpoint rstrip (s : string) : string :=
  match s with
  | EmptyString => EmptyString
  | String c s' =>
      match rstrip s' with
      | EmptyString => if isspace c then EmptyString else String c EmptyString
      | r => String c r
      end
  end.

(** [s.strip()] *)
Definition strip (s : string) : string := rstrip (lstrip s).

(** Truthiness of a [str]: only the empty string is falsy. *)
Definition truthy (s : string) : bool :=
  match s with EmptyString => false | _ => true end.

(** Truthiness of an optional [str] ([None] and [""] are falsy). *)
Definition truthy_opt (o : option string) : bool :=
  match o with Some s => truthy s | None => false end.

(** [o or d] for an optional string. *)
Definition or_else (o : option string) (d : string) : string :=
  match o with
  | Some s => if truthy s then s else d
  | None => d
  end.

(** [sep.join(parts)] *)
Fixpoint join (sep : string) (parts : list string) : string :=
  match parts with
  | [] => ""
  | [p] => p
  | p :: rest => p ++ sep ++ join sep rest
  end.

(** [needle in hay] for strings. *)
Fixpoint contains (needle hay : string) : bool :=
  String.prefix needle hay ||
  match hay with
  | EmptyString => false
  | String _ hay' => contains needle hay'
  end.

(** [l[start:]]: a negative [start] counts from the end and is clamped at
    the front; [l[-0:]] is [l[0:]], the whole list. *)
Definition slice_from {A} (l : list A) (start : Z) : list A :=
  if start <? 0
  then drop (Z.to_nat (Z.max (Z.of_nat (length l) + start) 0)) l
  else drop (Z.to_nat start) l.

(** The last [n] elements of a list. *)
Definition lastn {A} (n : nat) (l : list A) : list A := drop (length l - n) l.

(** [range(lo, hi)] *)
Definition range (lo hi : Z) : list Z := seqZ lo (hi - lo).

(** ** [int(s)] on a decimal literal *)

Definition digit_val (c : ascii) : option Z :=
  let n := Z.of_N (N_of_ascii c) in
  if (48 <=? n) && (n <=? 57) then Some (n - 48) else None.

(** Digits, with single underscores allowed between two digits. Returns the
    value and the number of digit characters read. *)
Fixpoint parse_digits (s : string) (acc : Z) (ndigits : nat) (after_digit : bool)
  : option (Z * nat) :=
  match s with
  | EmptyString => if after_digit then Some (acc, ndigits) else None
  | String c s' =>
      match digit_val c with
      | Some d => parse_digits s' (10 * acc + d) (S ndigits) true
      | None =>
          if Ascii.eqb c "_" && after_digit
          then parse_digits s' acc ndigits false
          else None
      end
  end.

(** CPython's default [sys.get_int_max_str_digits()]. *)
Definition int_max_str_digits : nat := 4300.

Definition parse_unsigned (s : string) : option Z :=
  match parse_digits s 0 0%nat false with
  | Some (v, n) => if (int_max_str_digits <? n)%nat then None else Some v
  | None => None
  end.

(** [int(s)]: surrounding whitespace is ignored, one sign is allowed;
    [None] stands for [ValueError]. *)
Definition int (s : string) : option Z :=
  match strip s with
  | String "+" r => parse_unsigned r
  | String "-" r => Z.opp <$> parse_unsigned r
  | t => parse_unsigned t
  end.

End Py.

(* ===================================================================== *)
(** * Exceptions ([app/error_handler/exceptions.py] and library errors)   *)
(* ===================================================================== *)

Inductive exn : Type :=
| EmbeddingServiceException (message : string) (status_code : Z)
                            (original_exception : option exn)
| ConcurrencyException (message : string) (cause : option exn)
| StaleDataError
| ValueError (message : string)
| AttributeError (message : string)
| IndexError (message : string)
| ProviderError (name : string)      (* raised by the OpenAI client *)
| DatabaseError (message : string)   (* raised by the database driver *)
| OtherError (name : string).



(** Outcome of a call that may raise. *)
Inductive result (A : Type) : Type :=
| Ok (a : A)
| Raise (e : exn).
Arguments Ok {A} a.
Arguments Raise {A} e.

(* ===================================================================== *)
(** * MemoryChatHistoryRepository                                         *)
(* ===================================================================== *)

Module ChatHistory.

(** [Message = Dict[str, str]] *)
Abbreviation Message := (gmap string string).

(** The dictionary literal [{"role": role, "content": content}]. *)
Definition message (role content : string) : Message :=
  {[ "role" := role; "content" := content ]}.

(** The repository object. Every method body runs under [self._lock], so a
    call is one atomic step; the lock itself is not part of the state. *)
Record MemoryChatHistoryRepository : Type := {
  _store : gmap string (list Message);
  _max : Z
}.

(** [MemoryChatHistoryRepository(max_messages)] *)
Definition init (max_messages : Z) : MemoryChatHistoryRepository :=
  {| _store := ∅; _max := max_messages |}.

(** [d.get(k, dflt)]: a read, the dictionary is not touched. *)
Definition dict_get {V} (d : gmap string V) (k : string) (dflt : V) : V :=
  default dflt (d !! k).

(** [d.setdefault(k, dflt)]: returns the value under [k], inserting [dflt]
    first when [k] is absent. *)
Definition dict_setdefault {V} (d : gmap string V) (k : string) (dflt : V)
  : V * gmap string V :=
  match d !! k with
  | Some v => (v, d)
  | None => (dflt, <[ k := dflt ]> d)
  end.

(** [return list(self._store.get(key, []))]: the copy that is returned and
    the repository after the call. *)
Definition get (key : string) (r : MemoryChatHistoryRepository)
  : list Message * MemoryChatHistoryRepository :=
  (dict_get (_store r) key [], r).

(** [self._store[key] = list(messages)[-self._max:]] *)
Definition set (key : string) (messages : list Message)
    (r : MemoryChatHistoryRepository) : MemoryChatHistoryRepository :=
  {| _store := <[ key := Py.slice_from messages (- _max r) ]> (_store r);
     _max := _max r |}.

(** [hist = self._store.setdefault(key, [])], then the in-place
    [hist.append(...)], then the replacement by the tail slice when the
    list grew past [_max]. *)
Definition append (key role content : string)
    (r : MemoryChatHistoryRepository) : MemoryChatHistoryRepository :=
  let '(hist, store) := dict_setdefault (_store r) key [] in
  (* [hist] is the list object held by the store: appending updates both *)
  let hist := (hist ++ [message role content])%list in
  let store := <[ key := hist ]> store in
  {| _store :=
       if _max r <? Z.of_nat (length hist)
       then <[ key := Py.slice_from hist (- _max r) ]> store
       else store;
     _max := _max r |}.

(** A call on the repository, to speak about sequences of calls. *)
Inductive op : Type :=
| OpGet (key : string)
| OpSet (key : string) (messages : list Message)
| OpAppend (key role content : string).

Definition step (r : MemoryChatHistoryRepository) (o : op) : MemoryChatHistoryRepository :=
  match o with
  | OpGet k => snd (get k r)
  | OpSet k ms => set k ms r
  | OpAppend k ro c => append k ro c r
  end.

Definition run (ops : list op) (r : MemoryChatHistoryRepository) : MemoryChatHistoryRepository :=
  fold_left step ops r.

(** [append] called once per (role, content) pair, in order. *)
Definition append_all (key : string) (msgs : list (string * string))
    (r : MemoryChatHistoryRepository) : MemoryChatHistoryRepository :=
  fold_left (fun r m => append key (fst m) (snd m) r) msgs r.

(** The key, if any, that a call writes. *)
Definition written (o : op) : option string :=
  match o with
  | OpGet _ => None
  | OpSet k _ => Some k
  | OpAppend k _ _ => Some k
  end.

(** Every stored sequence is within the capacity. *)
Definition bounded (r : MemoryChatHistoryRepository) : Prop :=
  forall key l, _store r !! key = Some l -> (length l <= Z.to_nat (_max r))%nat.

End ChatHistory.

(* ===================================================================== *)
(** * Configuration, providers and the world the services run in          *)
(* ===================================================================== *)

(** Floating-point numbers are kept abstract: the operations the sources
    use on them are the fields of this class. *)
Class FloatOps (F : Type) : Type := {
  float32 : F -> F;                  (* one element of [np.array(emb, dtype=np.float32)] *)
  norm : list F -> F;                (* [numpy.linalg.norm] *)
  is_zero : F -> bool;               (* [x == 0] *)
  fdiv : F -> F -> F;                (* [x / y] *)
  (* pgvector: [a <=> q] is at most [b <=> q] (cosine distance to [q]) *)
  cosine_le : list F -> list F -> list F -> bool
}.

(** A value of a generation-options dictionary. *)
Inductive optval (F : Type) : Type :=
| OFloat (x : F)
| OInt (n : Z)
| OBool (b : bool).
Arguments OFloat {F} x.
Arguments OInt {F} n.
Arguments OBool {F} b.

(** [app/configuration/config.py]: the attributes the pipeline reads. *)
Record Config (F : Type) : Type := {
  PROVIDER : string;
  DMR_EMBEDDING_MODEL : string;
  DMR_LLM_MODEL : string;
  OPENAI_EMBEDDING_MODEL : string;
  OPENAI_MODEL : string;
  DEFAULT_K_EVENTS : Z;
  MAX_K_EVENTS : Z;
  OPENAI_TEMPERATURE : F;
  OPENAI_P : F;
  FREQUENCY_PENALTY : F;
  PRESENCE_PENALTY : F;
  MAX_TOKENS : Z;
  OPENAI_EXTRACT_FREQUENCY_PENALTY : F;
  OPENAI_EXTRACT_PRESENCE_PENALTY : F;
  OPENAI_EXTRACT_MAX_TOKENS : Z;
  UNIFIED_VECTOR_DIM : Z;
  MAX_HISTORY_IN_CONTEXT : Z
}.
Arguments PROVIDER {F} _.
Arguments DMR_EMBEDDING_MODEL {F} _.
Arguments DMR_LLM_MODEL {F} _.
Arguments OPENAI_EMBEDDING_MODEL {F} _.
Arguments OPENAI_MODEL {F} _.
Arguments DEFAULT_K_EVENTS {F} _.
Arguments MAX_K_EVENTS {F} _.
Arguments OPENAI_TEMPERATURE {F} _.
Arguments OPENAI_P {F} _.
Arguments FREQUENCY_PENALTY {F} _.
Arguments PRESENCE_PENALTY {F} _.
Arguments MAX_TOKENS {F} _.
Arguments OPENAI_EXTRACT_FREQUENCY_PENALTY {F} _.
Arguments OPENAI_EXTRACT_PRESENCE_PENALTY {F} _.
Arguments OPENAI_EXTRACT_MAX_TOKENS {F} _.
Arguments UNIFIED_VECTOR_DIM {F} _.
Arguments MAX_HISTORY_IN_CONTEXT {F} _.

Definition OPENAI_GEN_OPTS {F} (cfg : Config F) : gmap string (optval F) :=
  {[ "temperature" := OFloat (OPENAI_TEMPERATURE cfg);
     "top_p" := OFloat (OPENAI_P cfg);
     "frequency_penalty" := OFloat (FREQUENCY_PENALTY cfg);
     "presence_penalty" := OFloat (PRESENCE_PENALTY cfg);
     "max_tokens" := OInt (MAX_TOKENS cfg);
     "stream" := OBool true ]}.

Definition OPENAI_EXTRACT_K_OPTS {F} (cfg : Config F) : gmap string (optval F) :=
  {[ "temperature" := OFloat (OPENAI_TEMPERATURE cfg);
     "top_p" := OFloat (OPENAI_TEMPERATURE cfg);
     "frequency_penalty" := OFloat (OPENAI_EXTRACT_FREQUENCY_PENALTY cfg);
     "presence_penalty" := OFloat (OPENAI_EXTRACT_PRESENCE_PENALTY cfg);
     "max_tokens" := OInt (OPENAI_EXTRACT_MAX_TOKENS cfg);
     "stream" := OBool false ]}.

(** ** Entities ([app/models/user.py], [app/models/event.py]) *)

Record User : Type := {
  user_id : Z;
  name : string;
  surname : string;
  email : string
}.

(** [User.__repr__], which [str(user)] falls back to. *)
Definition User_repr (u : User) : string :=
  "<User " ++ pretty (user_id u) ++ " - " ++ name u ++ " " ++ surname u
  ++ " - " ++ email u ++ ">".

(** A naive [datetime.datetime]. *)
Record DateTime : Type := {
  year : Z; month : Z; day : Z;
  hour : Z; minute : Z; second : Z; microsecond : Z
}.

(** [str(n).zfill(width)] for a non-negative [n]. *)
Definition zfill (width : nat) (n : Z) : string :=
  let s := pretty n in
  String.concat "" (repeat "0" (width - String.length s)) ++ s.

(** [datetime.isoformat()] *)
Definition isoformat (d : DateTime) : string :=
  zfill 4 (year d) ++ "-" ++ zfill 2 (month d) ++ "-" ++ zfill 2 (day d)
  ++ "T" ++ zfill 2 (hour d) ++ ":" ++ zfill 2 (minute d) ++ ":" ++ zfill 2 (second d)
  ++ (if microsecond d =? 0 then "" else "." ++ zfill 6 (microsecond d)).

Record Event (F : Type) : Type := {
  event_id : Z;
  title : option string;
  description : option string;
  location : option string;
  category : option string;
  datetime : option DateTime;
  organizer : option User;
  embedding : option (list F);
  version : Z
}.
Arguments event_id {F} _.
Arguments title {F} _.
Arguments description {F} _.
Arguments location {F} _.
Arguments category {F} _.
Arguments datetime {F} _.
Arguments organizer {F} _.
Arguments embedding {F} _.
Arguments version {F} _.

(** ** The OpenAI client *)

Record EmbeddingRequest : Type := {
  emb_model : string;
  emb_input : string;
  emb_dimensions : Z;
  emb_encoding_format : string
}.

Record EmbeddingItem (F : Type) : Type := { item_embedding : list F }.
Arguments item_embedding {F} _.

Record EmbeddingResponse (F : Type) : Type := { data : list (EmbeddingItem F) }.
Arguments data {F} _.

Record ChatRequest (F : Type) : Type := {
  chat_model : string;
  chat_messages : list (gmap string string);
  chat_opts : gmap string (optval F)
}.
Arguments chat_model {F} _.
Arguments chat_messages {F} _.
Arguments chat_opts {F} _.

Record ChatCompletionMessage : Type := { content : option string }.
Record Choice : Type := { choice_message : option ChatCompletionMessage }.
Record ChatResponse : Type := { choices : list Choice }.

(** The remote providers: each call sees and updates the provider's own
    state [P], and either answers or raises. *)
Class Backend (F P : Type) : Type := {
  embeddings_create : EmbeddingRequest -> P -> result (EmbeddingResponse F) * P;
  chat_completions_create : ChatRequest F -> P -> result ChatResponse * P
}.

(** Everything a request can read or change. *)
Record World (F P : Type) : Type := {
  provider : P;                                (* state of the remote providers *)
  sent : list (ChatRequest F);                 (* completion requests sent so far *)
  events_table : list (Event F);               (* rows of table [events] *)
  ivfflat_probes : option Z;                   (* [SET LOCAL ivfflat.probes] *)
  history : ChatHistory.MemoryChatHistoryRepository
}.
Arguments provider {F P} _.
Arguments sent {F P} _.
Arguments events_table {F P} _.
Arguments ivfflat_probes {F P} _.
Arguments history {F P} _.

(** ** State and exception monad *)

Definition M (W A : Type) : Type := W -> result A * W.

Definition ret {W A} (a : A) : M W A := fun w => (Ok a, w).

Definition raise {W A} (e : exn) : M W A := fun w => (Raise e, w).

Definition bind {W A B} (m : M W A) (k : A -> M W B) : M W B :=
  fun w =>
    match m w with
    | (Ok a, w') => k a w'
    | (Raise e, w') => (Raise e, w')
    end.

(** [try: m except Exception as e: ...]: the outcome of [m] as a value. *)
Definition try {W A} (m : M W A) : M W (result A) :=
  fun w => let '(r, w') := m w in (Ok r, w').

Declare Scope monad_scope.
Delimit Scope monad_scope with monad.
Notation "x <- m ;; k" := (bind m (fun x => k))
  (at level 100, m at next level, right associativity) : monad_scope.
Notation "m ;;; k" := (bind m (fun _ => k))
  (at level 100, right associativity) : monad_scope.

(** ** World operations *)

Section WorldOps.
Context {F P : Type} {BE : Backend F P}.

(** [client.embeddings.create(...)] *)
Definition client_embeddings_create (req : EmbeddingRequest)
  : M (World F P) (EmbeddingResponse F) :=
  fun w =>
    let '(r, p) := embeddings_create req (provider w) in
    (r, {| provider := p; sent := sent w; events_table := events_table w;
           ivfflat_probes := ivfflat_probes w; history := history w |}).

(** [client.chat.completions.create(model=..., messages=..., **opts)] *)
Definition client_chat_completions_create (req : ChatRequest F)
  : M (World F P) ChatResponse :=
  fun w =>
    let '(r, p) := chat_completions_create req (provider w) in
    (r, {| provider := p; sent := (sent w ++ [req])%list;
           events_table := events_table w;
           ivfflat_probes := ivfflat_probes w; history := history w |}).

(** [db.session.execute(text("SET LOCAL ivfflat.probes = :p"), {"p": probes})] *)
Definition set_local_probes (p : Z) : M (World F P) unit :=
  fun w =>
    (Ok tt, {| provider := provider w; sent := sent w;
               events_table := events_table w;
               ivfflat_probes := Some p; history := history w |}).

Definition read_events : M (World F P) (list (Event F)) :=
  fun w => (Ok (events_table w), w).

(** [self.history_repo.get(key)] *)
Definition history_get (key : string) : M (World F P) (list (gmap string string)) :=
  fun w =>
    let '(l, h) := ChatHistory.get key (history w) in
    (Ok l, {| provider := provider w; sent := sent w;
              events_table := events_table w;
              ivfflat_probes := ivfflat_probes w; history := h |}).

(** [self.history_repo.append(key, role, content)] *)
Definition history_append (key role content : string) : M (World F P) unit :=
  fun w =>
    (Ok tt, {| provider := provider w; sent := sent w;
               events_table := events_table w;
               ivfflat_probes := ivfflat_probes w;
               history := ChatHistory.append key role content (history w) |}).

(** A computation that leaves the conversation history alone, whatever
    its outcome. *)
Definition keeps_history {A} (m : M (World F P) A) : Prop :=
  forall w, history (snd (m w)) = history w.

End WorldOps.

Local Open Scope monad_scope.

(* ===================================================================== *)
(** * EmbeddingServiceImpl                                                *)
(* ===================================================================== *)

Module Embedding.

Record EmbeddingServiceImpl : Type := { model : string }.

Section Service.
Context {F P : Type} {FO : FloatOps F} {BE : Backend F P}.
Variable cfg : Config F.

(** [EmbeddingServiceImpl.__init__] *)
Definition init (model : option string) : EmbeddingServiceImpl :=
  {| model :=
       Py.or_else model
         (if String.eqb (PROVIDER cfg) "local"
          then DMR_EMBEDDING_MODEL cfg else OPENAI_EMBEDDING_MODEL cfg) |}.

(** [EmbeddingServiceImpl.create_embedding] *)
Definition create_embedding (self : EmbeddingServiceImpl) (text : string)
  : M (World F P) (list F) :=
  if negb (Py.truthy (Py.strip text)) then
    raise (EmbeddingServiceException "Input text must be a non-empty string." 500 None)
  else
    r <- try (client_embeddings_create
                {| emb_model := model self; emb_input := text;
                   emb_dimensions := UNIFIED_VECTOR_DIM cfg;
                   emb_encoding_format := "float" |}) ;;
    match r with
    | Raise e =>
        raise (EmbeddingServiceException "OpenAI embedding request failed." 500 (Some e))
    | Ok resp =>
        match data resp with
        | [] =>
            raise (EmbeddingServiceException
                     "OpenAI returned an unexpected embedding payload." 500
                     (Some (IndexError "list index out of range")))
        | item :: _ =>
            let emb := item_embedding item in
            if negb (Z.of_nat (length emb) =? UNIFIED_VECTOR_DIM cfg) then
              raise (EmbeddingServiceException
                       ("Expected " ++ pretty (UNIFIED_VECTOR_DIM cfg)
                        ++ "-dim embedding, got " ++ pretty (length emb)) 500 None)
            else
              let vec := map float32 emb in
              let norm_val := norm vec in
              if is_zero norm_val then
                raise (EmbeddingServiceException
                         "Embedding vector has zero norm, cannot normalize." 500 None)
              else
                let normalized := map (fun x => fdiv x norm_val) vec in
                ret normalized
        end
    end.

End Service.
End Embedding.

(* ===================================================================== *)
(** * EventRepositoryImpl.search_by_embedding                             *)
(* ===================================================================== *)

Module EventRepo.

Section Repository.
Context {F P : Type} {FO : FloatOps F} {BE : Backend F P}.

(** [WHERE e.embedding IS NOT NULL] *)
Definition has_embedding (e : Event F) : bool :=
  match embedding e with Some _ => true | None => false end.

(** [e1.embedding <=> q] is at most [e2.embedding <=> q]. *)
Definition nearer (q : list F) (e1 e2 : Event F) : bool :=
  match embedding e1, embedding e2 with
  | Some a, Some b => cosine_le q a b
  | _, _ => true
  end.

Fixpoint insert_nearer (q : list F) (e : Event F) (l : list (Event F)) : list (Event F) :=
  match l with
  | [] => [e]
  | e' :: l' => if nearer q e e' then e :: l else e' :: insert_nearer q e l'
  end.

(** [ORDER BY e.embedding <=> :q] *)
Definition order_by_distance (q : list F) (rows : list (Event F)) : list (Event F) :=
  foldr (insert_nearer q) [] rows.

(** [LIMIT :k]: PostgreSQL rejects a negative row count. *)
Definition limit (k : Z) (rows : list (Event F)) : result (list (Event F)) :=
  if k <? 0 then Raise (DatabaseError "LIMIT must not be negative")
  else Ok (take (Z.to_nat k) rows).

(** The statement
    [SELECT e.* FROM events e WHERE e.embedding IS NOT NULL
     ORDER BY e.embedding <=> :q LIMIT :k]. *)
Definition select_nearest (q : list F) (k : Z) : M (World F P) (list (Event F)) :=
  rows <- read_events ;;
  match limit k (order_by_distance q (List.filter has_embedding rows)) with
  | Ok res => ret res
  | Raise e => raise e
  end.

(** [EventRepositoryImpl.search_by_embedding] *)
Definition search_by_embedding (query_vector : list F) (k : Z) (probes : option Z)
  : M (World F P) (list (Event F)) :=
  let vec := query_vector in
  (match probes with
   | Some p => set_local_probes p
   | None => ret tt
   end) ;;;
  res <- select_nearest vec k ;;
  ret res.

End Repository.
End EventRepo.

(* ===================================================================== *)
(** * format_event and the prompt texts                                   *)
(* ===================================================================== *)

Definition nl : string := String (ascii_of_nat 10) EmptyString.

(** [app/util/format_event_util.py] *)
Definition format_event {F} (event : Event F) : string :=
  let fields :=
    [ Py.or_else (title event) "";
      Py.or_else (description event) "";
      Py.or_else (location event) "";
      Py.or_else (category event) "";
      match datetime event with Some d => isoformat d | None => "" end;
      match organizer event with Some u => User_repr u | None => "" end ] in
  Py.join " | " fields.

(** [DEFAULT_SYS_PROMPT] *)
Definition DEFAULT_SYS_PROMPT : string :=
  "You are an Event Assistant for a RAG-backed event finder." ++ nl ++ nl
  ++ "You will receive:" ++ nl
  ++ "- Context: a bullet list of events from the database (only use this information)." ++ nl
  ++ "- User: a single question about events." ++ nl ++ nl
  ++ "Your job:" ++ nl
  ++ "1) Answer ONLY using the Context — never invent events, details, venues, or times." ++ nl
  ++ "2) Prefer upcoming events; if none, say so." ++ nl
  ++ "3) Show up to k top suggestions with: title, date, location, category, and a short reason." ++ nl
  ++ "4) Be concise, friendly, and deterministic. Avoid markdown tables." ++ nl ++ nl
  ++ "Formatting:" ++ nl
  ++ "- Start with a short summary." ++ nl
  ++ "- Then list each event in this format:" ++ nl
  ++ "  1. <Title of the event>:" ++ nl
  ++ "     - Date & Time: <DD Mon YYYY, HH:MM>" ++ nl
  ++ "     - Location: <Location>" ++ nl
  ++ "     - Category: <Event Category>" ++ nl
  ++ "     - Organizer: <Name Surname, Email>" ++ nl
  ++ "Safety:" ++ nl
  ++ "- Disambiguate same-title events by date/location." ++ nl
  ++ "- Never mention internal implementation details." ++ nl
  ++ "- Always return markdown. " ++ nl
  ++ "- Make the event title bold and heading. " ++ nl
  ++ "- Classifier words like location and category are bold. " ++ nl.

(** [COUNT_EXTRACT_SYS_PROMPT]: adjacent literals, with the configured
    default and maximum printed into the text. *)
Definition COUNT_EXTRACT_SYS_PROMPT {F} (cfg : Config F) : string :=
  "You are an Event Assistant for a RAG-backed event finder."
  ++ "TASK: Output how many events the user wants."
  ++ "Defaults:"
  ++ "- Default = " ++ pretty (DEFAULT_K_EVENTS cfg)
  ++ "- Max = " ++ pretty (MAX_K_EVENTS cfg)
  ++ "RULES (concise):"
  ++ "1) Output ONLY a single positive integer. No other text."
  ++ "2) Valid counts: numerals (1,2,3,...) or number words (one..twenty)."
  ++ "3) Small vague words → Default: couple, few, several, some, handful, bunch."
  ++ "4) Large vague words → Max: many, dozens, loads, tons."
  ++ "5) Ignore non-event numbers (dates, times, years, prices, IDs, etc.)."
  ++ "6) Ranges: pick the upper bound. “3–5”→5; “between 3 and 5”→5."
  ++ " “at least N”→N; “up to/no more than/maximum N”→N."
  ++ "7) Decorated numbers (#, “no”, etc.) are normal numbers."
  ++ "8) Cap at Max: any value > Max → Max."
  ++ "9) If no clear count / value<1 → Default."
  ++ "10) Multiple counts/hesitation → pick the latter (≤Max), else Max."
  ++ "EXAMPLES:"
  ++ "- “what’s on 2025-08-15 at 19:00? send 4 events” → 4"
  ++ "- “20 events” → " ++ pretty (MAX_K_EVENTS cfg)
  ++ "- “top 10 tech meetups in Skopje” → 10"
  ++ "- “events on Dec 25 at 6pm, show me 3” → 3"
  ++ "- “recommend some good tech events near me” → " ++ pretty (DEFAULT_K_EVENTS cfg)
  ++ "- “Give me a couple of cool events in Ohrid” → " ++ pretty (DEFAULT_K_EVENTS cfg)
  ++ "- “give me two events” → 2"
  ++ "- “anywhere from 4 to 7 events” → 7"
  ++ "OUTPUT: single integer only (e.g., 5).".

(* ===================================================================== *)
(** * ModelServiceImpl                                                    *)
(* ===================================================================== *)

Module ModelService.

Record ModelServiceImpl : Type := {
  embedding_service : Embedding.EmbeddingServiceImpl;
  sys_prompt : string;
  model : string;
  history_repo : bool        (* whether a [ChatHistoryRepository] was given *)
}.

Section Service.
Context {F P : Type} {FO : FloatOps F} {BE : Backend F P}.
Variable cfg : Config F.

(** [ModelService.__init__] and [ModelServiceImpl.__init__] *)
Definition init (embedding_service : Embedding.EmbeddingServiceImpl)
    (model sys_prompt : option string) (history_repo : bool) : ModelServiceImpl :=
  {| embedding_service := embedding_service;
     sys_prompt := Py.or_else sys_prompt DEFAULT_SYS_PROMPT;
     model :=
       Py.or_else model
         (if String.eqb (PROVIDER cfg) "local"
          then DMR_LLM_MODEL cfg else OPENAI_MODEL cfg);
     history_repo := history_repo |}.

(** [resp.choices[0].message.content if resp.choices and
    resp.choices[0].message else dflt]; the content itself may be [None]. *)
Definition first_content (resp : ChatResponse) (dflt : string) : option string :=
  match choices resp with
  | c :: _ =>
      match choice_message c with
      | Some m => content m
      | None => Some dflt
      end
  | [] => Some dflt
  end.

(** The content of the system message of a completion request. *)
Definition system_content (req : ChatRequest F) : option string :=
  match chat_messages req with
  | m :: _ => m !! "content"
  | [] => None
  end.

(** [ModelServiceImpl.build_messages] *)
Definition build_messages (sys_prompt : option string) (context : string)
    (user_prompt : string) : list (gmap string string) :=
  let sys_text := Py.strip (Py.or_else sys_prompt "") in
  let ctx_text := Py.strip (Py.or_else (Some context) "no events retrieved") in
  let system_msg :=
    ChatHistory.message "system" (Py.strip (sys_text ++ nl ++ nl ++ ctx_text)) in
  let user_msg := ChatHistory.message "user" user_prompt in
  [system_msg; user_msg].

(** The request that [extract_requested_event_count] sends: the options
    without [stream], the counting instructions, the user's text. *)
Definition count_request (self : ModelServiceImpl) (user_prompt : string)
  : ChatRequest F :=
  let cfg_opts := delete "stream" (OPENAI_EXTRACT_K_OPTS cfg) in
  let system_msg :=
    ChatHistory.message "system" (Py.strip (COUNT_EXTRACT_SYS_PROMPT cfg ++ nl ++ nl)) in
  let user_msg := ChatHistory.message "user" user_prompt in
  let messages := [system_msg; user_msg] in
  {| chat_model := model self; chat_messages := messages; chat_opts := cfg_opts |}.

(** [ModelServiceImpl.extract_requested_event_count] *)
Definition extract_requested_event_count (self : ModelServiceImpl)
    (user_prompt : string) : M (World F P) Z :=
  resp <- client_chat_completions_create (count_request self user_prompt) ;;
  match first_content resp "0" with
  | None => raise (AttributeError "'NoneType' object has no attribute 'strip'")
  | Some content =>
      match Py.int (Py.strip content) with
      | Some n => ret n
      | None => raise (ValueError "invalid literal for int() with base 10")
      end
  end.

(** The lines of the history block: [f"{m['role']}: {m['content']}".strip()]
    for the messages that have both entries non-empty. *)
Definition history_lines (recent : list (gmap string string)) : list string :=
  map (fun m => Py.strip (default "" (m !! "role") ++ ": " ++ default "" (m !! "content")))
      (List.filter (fun m => Py.truthy_opt (m !! "role") && Py.truthy_opt (m !! "content"))
                   recent).

(** [combined_context] from the documents and the history block. *)
Definition combined_context (rag_docs history_block : string) (count : nat) : string :=
  let parts := [] in
  let parts :=
    if Py.truthy (Py.strip rag_docs)
    then List.app parts ["DOCUMENTS:" ++ nl ++ rag_docs] else parts in
  let parts :=
    if Py.truthy history_block
    then List.app parts
           ["RECENT MESSAGES (last " ++ pretty count ++ "):" ++ nl ++ history_block]
    else parts in
  match parts with
  | [] => "No context available."
  | _ => Py.join (nl ++ nl) parts
  end.

(** [ModelServiceImpl.query_prompt] *)
Definition query_prompt (self : ModelServiceImpl) (user_prompt session_key : string)
  : M (World F P) string :=
  embed_vector <- Embedding.create_embedding cfg (embedding_service self) user_prompt ;;
  k <- extract_requested_event_count self user_prompt ;;
  events <- EventRepo.search_by_embedding embed_vector k (Some 10) ;;
  let rag_docs := Py.join nl (map format_event events) in
  hist <-
    (if Py.truthy session_key && history_repo self then
       prior <- history_get session_key ;;
       let recent :=
         match prior with
         | [] => []
         | _ => Py.slice_from prior (- MAX_HISTORY_IN_CONTEXT cfg)
         end in
       let count := length recent in
       match recent with
       | [] => ret ("", count)
       | _ => ret (Py.join nl (history_lines recent), count)
       end
     else ret ("", 0%nat)) ;;
  let '(history_block, count) := hist in
  let combined_context := combined_context rag_docs history_block count in
  let messages := build_messages (Some (sys_prompt self)) combined_context user_prompt in
  let cfg_opts := delete "stream" (OPENAI_GEN_OPTS cfg) in
  resp <- client_chat_completions_create
            {| chat_model := model self; chat_messages := messages;
               chat_opts := cfg_opts |} ;;
  let answer := Py.or_else (first_content resp "") "" in
  let answer := Py.strip answer in
  (if Py.truthy session_key && history_repo self then
     history_append session_key "user" user_prompt ;;;
     history_append session_key "assistant" answer
   else ret tt) ;;;
  ret answer.

End Service.
End ModelService.

(* ===================================================================== *)
(** * transaction_util: [transactional] and [retry_conflicts]             *)
(* ===================================================================== *)

Module TransactionUtil.

(** What the SQLAlchemy session did, in order. *)
Inductive session_event : Type :=
| Begin
| Commit
| Rollback.

(** The request-scoped session: whether a transaction is open
    ([session.get_transaction() is not None]), the error that flushing the
    pending changes raises, if any (a stale version token gives
    [StaleDataError]), and the journal of what the session did. *)
Record Session : Type := {
  transaction : bool;
  flush_error : option exn;
  journal : list session_event
}.

(** [session.begin()] *)
Definition begin (s : Session) : Session :=
  {| transaction := true; flush_error := flush_error s;
     journal := (journal s ++ [Begin])%list |}.

(** [session.rollback()]: discards the pending changes; nothing to do
    when no transaction is open. *)
Definition rollback (s : Session) : Session :=
  if transaction s then
    {| transaction := false; flush_error := None;
       journal := (journal s ++ [Rollback])%list |}
  else s.

(** [commit()]: flushes, then commits. *)
Definition commit (s : Session) : result unit * Session :=
  match flush_error s with
  | Some e => (Raise e, s)
  | None =>
      (Ok tt, {| transaction := false; flush_error := None;
                 journal := (journal s ++ [Commit])%list |})
  end.

(** [with session.begin(): body]: commit when the body returns and the
    transaction is still open, roll back when the body or the commit
    raises; the exception goes on. *)
Definition with_begin {A} (body : Session -> result A * Session) (s : Session)
  : result A * Session :=
  match body s with
  | (Ok v, s1) =>
      if transaction s1 then
        match commit s1 with
        | (Ok _, s2) => (Ok v, s2)
        | (Raise e, s2) => (Raise e, rollback s2)
        end
      else (Ok v, s1)
  | (Raise e, s1) => (Raise e, rollback s1)
  end.

(** [with nullcontext(): body] *)
Definition with_nullcontext {A} (body : Session -> result A * Session) (s : Session)
  : result A * Session :=
  body s.

Definition is_StaleDataError (e : exn) : bool :=
  match e with StaleDataError => true | _ => false end.

Definition is_ConcurrencyException (e : exn) : bool :=
  match e with ConcurrencyException _ _ => true | _ => false end.

(** [transactional(fn)], for a function [fn] named [method_name]. *)
Definition transactional {A} (method_name : string)
    (fn : Session -> result A * Session) (session : Session)
  : result A * Session :=
  let outermost := negb (transaction session) in
  let '(r, s) :=
    if outermost then with_begin fn (begin session)
    else with_nullcontext fn session in
  match r with
  | Ok result => (Ok result, s)
  | Raise e =>
      if is_StaleDataError e then
        if outermost then
          (Raise (ConcurrencyException
                    ("Resource was updated by another transaction in method "
                     ++ method_name ++ ".") (Some e)),
           rollback s)
        else (Raise e, s)
      else
        if outermost then (Raise e, rollback s) else (Raise e, s)
  end.

(** What the retry wrapper did, in order. *)
Inductive retry_event : Type :=
| Invoked (attempt : Z)
| RolledBack
| Slept (seconds : Q).

(** [time.sleep(seconds)] refuses a negative duration. *)
Definition sleep_ok (seconds : Q) : bool := Qle_bool 0 seconds.

(** The [for attempt in ...] loop of [wrapped]: the result ([Ok None] when
    the loop ends without a [return]), the session, and what was done. *)
Fixpoint retry_loop {A} (max_retries : Z) (backoff_sec : Q)
    (fn : Session -> result A * Session) (attempts : list Z) (s : Session)
  : result (option A) * Session * list retry_event :=
  match attempts with
  | [] => (Ok None, s, [])
  | attempt :: rest =>
      match fn s with
      | (Ok v, s1) => (Ok (Some v), s1, [Invoked attempt])
      | (Raise e, s1) =>
          if is_ConcurrencyException e then
            let s2 := rollback s1 in
            if attempt =? max_retries then
              (Raise e, s2, [Invoked attempt; RolledBack])
            else
              let seconds := (backoff_sec * inject_Z attempt)%Q in
              if sleep_ok seconds then
                let '(r, s3, tr) := retry_loop max_retries backoff_sec fn rest s2 in
                (r, s3, Invoked attempt :: RolledBack :: Slept seconds :: tr)
              else
                (Raise (ValueError "sleep length must be non-negative"), s2,
                 [Invoked attempt; RolledBack])
          else (Raise e, s1, [Invoked attempt])
      end
  end.

(** [retry_conflicts(max_retries, backoff_sec)(fn)] *)
Definition retry_conflicts {A} (max_retries : Z) (backoff_sec : Q)
    (fn : Session -> result A * Session) (s : Session)
  : result (option A) * Session * list retry_event :=
  retry_loop max_retries backoff_sec fn (Py.range 1 (max_retries + 1)) s.

(** How often the wrapped function was called. *)
Definition invocations (tr : list retry_event) : nat :=
  length (List.filter (fun e => match e with Invoked _ => true | _ => false end) tr).

(** One lost round: the call, the rollback, the wait before the next. *)
Definition conflict_round (backoff_sec : Q) (attempt : Z) : list retry_event :=
  [Invoked attempt; RolledBack; Slept (backoff_sec * inject_Z attempt)%Q].

(** The [m] lost rounds of the attempts [first], [first + 1], ... *)
Definition conflict_rounds (backoff_sec : Q) (first : Z) (m : nat) : list retry_event :=
  concat (map (conflict_round backoff_sec) (seqZ first (Z.of_nat m))).

(** The error that leaves the outermost boundary when [e] reaches it. *)
Definition boundary_error (method_name : string) (e : exn) : exn :=
  if is_StaleDataError e
  then ConcurrencyException
         ("Resource was updated by another transaction in method "
          ++ method_name ++ ".") (Some e)
  else e.


(** The session after a successful commit. *)
Definition committed (s : Session) : Session :=
  {| transaction := false; flush_error := None;
     journal := (journal s ++ [Commit])%list |}.

End TransactionUtil.

(* ===================================================================== *)
(** * A small concrete setting, for the worked examples                   *)
(* ===================================================================== *)

Module Sample.

(** Rationals stand in for floats; the square root is taken on numerator
    and denominator, which is exact on the vectors used below. *)
Definition Qsqrt (x : Q) : Q :=
  Qmake (Z.sqrt (Qnum x)) (Z.to_pos (Z.sqrt (Zpos (Qden x)))).

Definition Qdot (a b : list Q) : Q :=
  foldr Qplus 0%Q (zip_with Qmult a b).

Definition Qnorm (v : list Q) : Q := Qsqrt (Qdot v v).

#[global] Instance QFloat : FloatOps Q := {|
  float32 := fun x => x;
  norm := Qnorm;
  is_zero := fun x => Qeq_bool x 0;
  fdiv := Qdiv;
  cosine_le := fun q a b =>
    Qle_bool (Qdiv (Qdot b q) (Qnorm b)) (Qdiv (Qdot a q) (Qnorm a))
|}.

(** The defaults of [config.py], with a three-dimensional vector space. *)
Definition config : Config Q := {|
  PROVIDER := "local";
  DMR_EMBEDDING_MODEL := "ai/mxbai-embed-large";
  DMR_LLM_MODEL := "ai/llama3.1:8b-instruct";
  OPENAI_EMBEDDING_MODEL := "text-embedding-3-large";
  OPENAI_MODEL := "gpt-4o-mini";
  DEFAULT_K_EVENTS := 5;
  MAX_K_EVENTS := 5;
  OPENAI_TEMPERATURE := 0%Q;
  OPENAI_P := 1%Q;
  FREQUENCY_PENALTY := 0%Q;
  PRESENCE_PENALTY := 0%Q;
  MAX_TOKENS := 512;
  OPENAI_EXTRACT_FREQUENCY_PENALTY := 0%Q;
  OPENAI_EXTRACT_PRESENCE_PENALTY := 0%Q;
  OPENAI_EXTRACT_MAX_TOKENS := 8;
  UNIFIED_VECTOR_DIM := 3;
  MAX_HISTORY_IN_CONTEXT := 5
|}.

(** A completion whose first choice carries [text]. *)
Definition completion (text : string) : ChatResponse :=
  {| choices := [ {| choice_message := Some {| content := Some text |} |} ] |}.


(** An embedding response carrying one vector. *)
Definition embedded (v : list Q) : EmbeddingResponse Q :=
  {| data := [ {| item_embedding := v |} ] |}.

(** A scripted provider: the embedding call answers [emb]; the first
    completion call answers [first], every later one [later]. The provider
    state counts the completion calls. *)
Definition scripted (emb : result (EmbeddingResponse Q))
    (first later : result ChatResponse) : Backend Q nat := {|
  embeddings_create := fun _ n => (emb, n);
  chat_completions_create := fun _ n =>
    (match n with O => first | S _ => later end, S n)
|}.

(** The provider works: a unit vector, the count 2, then an answer. *)
Definition healthy : Backend Q nat :=
  scripted (Ok (embedded [1; 0; 0]%Q))
           (Ok (completion "2")) (Ok (completion " none found ")).

(** The embedding endpoint is down. *)
Definition embedding_down : Backend Q nat :=
  scripted (Raise (ProviderError "APIConnectionError"))
           (Ok (completion "2")) (Ok (completion " none found ")).




(** The counting completion answers in words. *)
Definition count_in_words : Backend Q nat :=
  scripted (Ok (embedded [1; 0; 0]%Q))
           (Ok (completion "two")) (Ok (completion " none found ")).

(** The answering completion fails. *)
Definition answer_down : Backend Q nat :=
  scripted (Ok (embedded [1; 0; 0]%Q))
           (Ok (completion "2")) (Raise (ProviderError "APITimeoutError")).

Definition world (rows : list (Event Q)) (max_messages : Z) : World Q nat := {|
  provider := 0%nat;
  sent := [];
  events_table := rows;
  ivfflat_probes := None;
  history := ChatHistory.init max_messages
|}.

Definition embedder : Embedding.EmbeddingServiceImpl :=
  Embedding.init config None.

Definition service : ModelService.ModelServiceImpl :=
  ModelService.init config embedder None None true.

Definition party (v : option (list Q)) (n : Z) : Event Q := {|
  event_id := n;
  title := Some ("Party " ++ pretty n);
  description := None;
  location := Some "Skopje";
  category := Some "music";
  datetime := Some {| year := 2025; month := 8; day := 26;
                      hour := 19; minute := 0; second := 0; microsecond := 0 |};
  organizer := Some {| user_id := 3; name := "Ana"; surname := "Doe";
                       email := "ana@example.com" |};
  embedding := v;
  version := 1
|}.

(** A session on which nothing has happened yet. *)
Definition idle : TransactionUtil.Session :=
  {| TransactionUtil.transaction := false;
     TransactionUtil.flush_error := None;
     TransactionUtil.journal := [] |}.

(** An update that meets a stale version token. *)
Definition stale_update (s : TransactionUtil.Session)
  : result Z * TransactionUtil.Session :=
  (Raise StaleDataError, s).

(** An update that goes through. *)
Definition ok_update (s : TransactionUtil.Session)
  : result Z * TransactionUtil.Session :=
  (Ok 7, s).

(** An update that meets a stale version token on its first two runs:
    it looks at how much the session has been through. *)
Definition flaky_update (s : TransactionUtil.Session)
  : result Z * TransactionUtil.Session :=
  if (length (TransactionUtil.journal s) <? 4)%nat
  then (Raise StaleDataError, s)
  else (Ok 7, s).

End Sample.

(* ===================================================================== *)
(** * PromptResource.get ([app/routes/app_route.py])                      *)
(* ===================================================================== *)

Module PromptRoute.

(** The JSON body and the status code of the response. *)
Record PromptResponse : Type := {
  answer : string;
  session_key : string;
  status : Z
}.

(** [f"{user_id}:{chat_id}" if chat_id else user_id] *)
Definition session_key_of (user_id : string) (chat_id : option string) : string :=
  match chat_id with
  | Some c => if Py.truthy c then user_id ++ ":" ++ c else user_id
  | None => user_id
  end.

(** A text without a colon, as the identity [str(user.id)] that the login
    route puts into the token. *)
Fixpoint colon_free (s : string) : bool :=
  match s with
  | EmptyString => true
  | String c s' => negb (Ascii.eqb c ":") && colon_free s'
  end.

(** The chat thread that a [chat_id] parameter selects: an empty
    parameter selects the same thread as a missing one. *)
Definition thread_of (chat_id : option string) : option string :=
  match chat_id with
  | Some c => if Py.truthy c then Some c else None
  | None => None
  end.

Section Route.
Context {F P : Type} {FO : FloatOps F} {BE : Backend F P}.
Variable cfg : Config F.

(** [PromptResource.get]: [prompt] and [chat_id] are the query parameters
    ([request.args.get]), [jwt_identity] is [str(get_jwt_identity())];
    [abort(400, ...)] raises werkzeug's [BadRequest]. *)
Definition get (model_service : ModelService.ModelServiceImpl)
    (prompt : option string) (jwt_identity : string) (chat_id : option string)
  : M (World F P) PromptResponse :=
  if negb (Py.truthy_opt prompt) then raise (OtherError "BadRequest")
  else
    let user_prompt := default "" prompt in
    let user_id := jwt_identity in
    let session_key := session_key_of user_id chat_id in
    answer <- ModelService.query_prompt cfg model_service user_prompt session_key ;;
    ret {| answer := answer; session_key := session_key; status := 200 |}.

End Route.
End PromptRoute.

(* ===================================================================== *)
(** * UserServiceImpl ([app/services/user_service_impl.py])               *)
(* ===================================================================== *)

Module UserService.

(** The [UserRepository] interface: every method works through the
    session it is given, and may raise. *)
Class UserRepository : Type := {
  get_by_id : Z -> TransactionUtil.Session
              -> result (option User) * TransactionUtil.Session;
  get_by_email : string -> TransactionUtil.Session
                 -> result (option User) * TransactionUtil.Session;
  save : User -> TransactionUtil.Session
         -> result User * TransactionUtil.Session;
  delete_by_id : Z -> TransactionUtil.Session
                 -> result unit * TransactionUtil.Session
}.

(** [app/util/user_util.py] *)
Definition return_not_found_by_id_message (id : Z) : string :=
  "User not found with id " ++ pretty id.

(** The exceptions of [exceptions.py] that the user service raises, by
    class (their message texts are not kept). *)
Definition UserNotFoundException : exn := OtherError "UserNotFoundException".
Definition DuplicateEmailException : exn := OtherError "DuplicateEmailException".
Definition UserSaveException : exn := OtherError "UserSaveException".
Definition UserDeleteException : exn := OtherError "UserDeleteException".

(** [validate_user] of [app/util/validation_util.py]: a missing user is
    an error. *)
Definition validate_user (user : option User) (message : string) : result unit :=
  match user with
  | Some _ => Ok tt
  | None => Raise UserNotFoundException
  end.

Section Service.
Context {repo : UserRepository}.

(** The body of [UserServiceImpl.save]. *)
Definition save_body (user : User) (session : TransactionUtil.Session)
  : result User * TransactionUtil.Session :=
  match get_by_email (email user) session with
  | (Raise e, s1) => (Raise e, s1)
  | (Ok (Some _), s1) => (Raise DuplicateEmailException, s1)
  | (Ok None, s1) =>
      match save user s1 with
      | (Ok saved, s2) => (Ok saved, s2)
      | (Raise _, s2) => (Raise UserSaveException, s2)
      end
  end.

(** [@retry_conflicts(max_retries=3, backoff_sec=0.1) @transactional def save] *)
Definition service_save (user : User) (session : TransactionUtil.Session)
  : result (option User) * TransactionUtil.Session * list TransactionUtil.retry_event :=
  TransactionUtil.retry_conflicts 3 (1 # 10)
    (TransactionUtil.transactional "save" (save_body user)) session.

(** The body of [UserServiceImpl.delete_by_id]. *)
Definition delete_by_id_body (user_id : Z) (session : TransactionUtil.Session)
  : result unit * TransactionUtil.Session :=
  match get_by_id user_id session with
  | (Raise e, s1) => (Raise e, s1)
  | (Ok user, s1) =>
      match validate_user user (return_not_found_by_id_message user_id) with
      | Raise e => (Raise e, s1)
      | Ok _ =>
          match delete_by_id user_id s1 with
          | (Ok _, s2) => (Ok tt, s2)
          | (Raise _, s2) => (Raise UserDeleteException, s2)
          end
      end
  end.

(** [@retry_conflicts(max_retries=3, backoff_sec=0.1) @transactional
    def delete_by_id] *)
Definition service_delete_by_id (user_id : Z) (session : TransactionUtil.Session)
  : result (option unit) * TransactionUtil.Session * list TransactionUtil.retry_event :=
  TransactionUtil.retry_conflicts 3 (1 # 10)
    (TransactionUtil.transactional "delete_by_id" (delete_by_id_body user_id)) session.

End Service.
End UserService.

(* ===================================================================== *)
(** * More of the concrete setting                                        *)
(* ===================================================================== *)

Module Scenario.

Definition ana : User :=
  {| user_id := 3; name := "Ana"; surname := "Doe"; email := "ana@example.com" |}.

(** A user table that holds [ana] only; saving and deleting go through. *)
Definition one_user : UserService.UserRepository := {|
  UserService.get_by_id := fun n s =>
    (Ok (if n =? 3 then Some ana else None), s);
  UserService.get_by_email := fun e s =>
    (Ok (if String.eqb e "ana@example.com" then Some ana else None), s);
  UserService.save := fun u s => (Ok u, s);
  UserService.delete_by_id := fun _ s => (Ok tt, s)
|}.

(** An empty user table whose [save] meets a stale version token. *)
Definition stale_save : UserService.UserRepository := {|
  UserService.get_by_id := fun _ s => (Ok None, s);
  UserService.get_by_email := fun _ s => (Ok None, s);
  UserService.save := fun _ s => (Raise StaleDataError, s);
  UserService.delete_by_id := fun _ s => (Ok tt, s)
|}.

(** A world whose history already holds one exchange of session [7]. *)
Definition talked : World Q nat :=
  {| provider := 0%nat; sent := []; events_table := [];
     ivfflat_probes := None;
     history :=
       ChatHistory.append "7" "assistant" "hello"
         (ChatHistory.append "7" "user" "hi" (ChatHistory.init 50)) |}.

(** Three parties, one of them without an embedding. *)
Definition parties : list (Event Q) :=
  [Sample.party (Some [3; 4; 0]%Q) 1;
   Sample.party None 2;
   Sample.party (Some [1; 0; 0]%Q) 3;
   Sample.party (Some [0; 1; 0]%Q) 4].

End Scenario.

(* ===================================================================== *)
(** * Facts about the Python primitives                                   *)
(* ===================================================================== *)

Section PyFacts.

Lemma slice_from_neg {A} (l : list A) (n : Z) :
  0 < n -> Py.slice_from l (- n) = Py.lastn (Z.to_nat n) l.
Proof.
  intros Hn. unfold Py.slice_from, Py.lastn.
  destruct (Z.ltb_spec (- n) 0) as [_|Hc]; [|lia].
  f_equal. lia.
Qed.

Lemma slice_from_neg_zero {A} (l : list A) : Py.slice_from l (- 0) = l.
Proof. reflexivity. Qed.

Lemma lastn_length {A} (n : nat) (l : list A) :
  length (Py.lastn n l) = Nat.min (length l) n.
Proof. unfold Py.lastn. rewrite length_drop. lia. Qed.

Lemma lastn_all {A} (n : nat) (l : list A) :
  (length l <= n)%nat -> Py.lastn n l = l.
Proof.
  intros Hl. unfold Py.lastn.
  replace (length l - n)%nat with 0%nat by lia. reflexivity.
Qed.

Lemma lastn_suffix {A} (n : nat) (l : list A) :
  exists evicted, l = (evicted ++ Py.lastn n l)%list.
Proof.
  exists (take (length l - n) l). unfold Py.lastn. symmetry. apply take_drop.
Qed.

Lemma lastn_app_lastn {A} (n : nat) (a b : list A) :
  Py.lastn n (Py.lastn n a ++ b)%list = Py.lastn n (a ++ b)%list.
Proof.
  destruct (Nat.le_gt_cases (length a) n) as [Hle|Hgt].
  - rewrite (lastn_all n a) by exact Hle. reflexivity.
  - unfold Py.lastn at 1 3. rewrite !length_app, lastn_length.
    unfold Py.lastn.
    replace (Nat.min (length a) n + length b - n)%nat with (length b) by lia.
    replace (length a + length b - n)%nat
      with ((length a - n) + length b)%nat by lia.
    rewrite <- drop_drop.
    f_equal. rewrite drop_app_le by lia. reflexivity.
Qed.

End PyFacts.

(* ===================================================================== *)
(** * The conversation history store                                      *)
(* ===================================================================== *)

Section ChatHistoryFacts.
Import ChatHistory.

Lemma append_max key role content r :
  _max (append key role content r) = _max r.
Proof. unfold append. destruct (dict_setdefault _ _ _). reflexivity. Qed.

Lemma set_max key messages r : _max (set key messages r) = _max r.
Proof. reflexivity. Qed.

(** What [get] sees after an [append] on the same key. *)
Lemma get_append_same key role content r :
  fst (get key (append key role content r)) =
  let hist := (fst (get key r) ++ [message role content])%list in
  if _max r <? Z.of_nat (length hist) then Py.slice_from hist (- _max r) else hist.
Proof.
  unfold get, append, dict_get, dict_setdefault. cbn [fst].
  destruct (_store r !! key) as [l|] eqn:Hl; cbn [default from_option id];
    match goal with
    | |- context [if ?c then _ else _] => destruct c
    end; cbn [_store]; rewrite ?lookup_insert_eq; reflexivity.
Qed.

(** An [append] leaves the other keys alone. *)
Lemma store_append_other key key' role content r :
  key <> key' ->
  _store (append key role content r) !! key' = _store r !! key'.
Proof.
  intros Hne. unfold append, dict_setdefault.
  destruct (_store r !! key) as [l|] eqn:Hl;
    match goal with
    | |- context [if ?c then _ else _] => destruct c
    end; cbn [_store]; rewrite ?lookup_insert_ne by exact Hne; reflexivity.
Qed.

Lemma store_set_other key key' messages r :
  key <> key' -> _store (set key messages r) !! key' = _store r !! key'.
Proof. intros Hne. unfold set. cbn [_store]. by rewrite lookup_insert_ne. Qed.

(** With a positive capacity, [append] keeps the last [_max] messages. *)
Lemma get_append_positive key role content r :
  0 < _max r ->
  fst (get key (append key role content r)) =
  Py.lastn (Z.to_nat (_max r)) (fst (get key r) ++ [message role content])%list.
Proof.
  intros Hpos. rewrite get_append_same. cbv zeta.
  destruct (Z.ltb_spec (_max r)
              (Z.of_nat (length (fst (get key r) ++ [message role content])%list)))
    as [Hlt|Hge].
  - apply slice_from_neg, Hpos.
  - symmetry. apply lastn_all. lia.
Qed.

(** With capacity zero, [append] keeps everything: [hist[-0:]] is [hist]. *)
Lemma get_append_zero key role content r :
  _max r = 0 ->
  fst (get key (append key role content r)) =
  (fst (get key r) ++ [message role content])%list.
Proof.
  intros Hz. rewrite get_append_same. cbv zeta. rewrite Hz.
  rewrite slice_from_neg_zero. by destruct (_ <? _).
Qed.

Lemma get_append_all_positive key msgs r :
  0 < _max r ->
  (length (fst (get key r)) <= Z.to_nat (_max r))%nat ->
  fst (get key (append_all key msgs r)) =
  Py.lastn (Z.to_nat (_max r))
        (fst (get key r) ++ map (fun m => message (fst m) (snd m)) msgs)%list.
Proof.
  intros Hpos. revert r Hpos.
  induction msgs as [|[role content] msgs IH]; intros r Hpos Hlen.
  - cbn [append_all fold_left map]. rewrite app_nil_r.
    symmetry. by apply lastn_all.
  - cbn [append_all fold_left map fst snd].
    change (fold_left _ msgs ?r0) with (append_all key msgs r0).
    rewrite IH; rewrite ?append_max; try exact Hpos.
    + rewrite get_append_positive by exact Hpos.
      rewrite lastn_app_lastn, <- app_assoc. reflexivity.
    + rewrite get_append_positive by exact Hpos.
      rewrite lastn_length. lia.
Qed.

(** On a fresh key and with a positive capacity, [N] appends leave the
    last [min N capacity] messages, in call order, and what was dropped
    was dropped from the front. *)
Lemma append_all_fresh key msgs r :
  0 < _max r ->
  _store r !! key = None ->
  let all := map (fun m => message (fst m) (snd m)) msgs in
  let kept := fst (get key (append_all key msgs r)) in
  kept = Py.lastn (Z.to_nat (_max r)) all /\
  length kept = Nat.min (length msgs) (Z.to_nat (_max r)) /\
  exists evicted, all = (evicted ++ kept)%list.
Proof.
  intros Hpos Hfresh all kept.
  assert (Hk : kept = Py.lastn (Z.to_nat (_max r)) all).
  { subst kept all. rewrite get_append_all_positive; try exact Hpos.
    - unfold get, dict_get. rewrite Hfresh. reflexivity.
    - unfold get, dict_get. rewrite Hfresh. cbn. lia. }
  split; [exact Hk|]. split.
  - rewrite Hk, lastn_length. subst all. by rewrite length_map.
  - rewrite Hk. apply lastn_suffix.
Qed.

Lemma bounded_init max_messages : bounded (init max_messages).
Proof. intros key l Hl. cbn in Hl. by rewrite lookup_empty in Hl. Qed.

Lemma bounded_get_of r key :
  bounded r -> (length (fst (get key r)) <= Z.to_nat (_max r))%nat.
Proof.
  intros Hb. unfold get, dict_get. cbn [fst].
  destruct (_store r !! key) as [l|] eqn:Hl; cbn; [eauto | lia].
Qed.

Lemma store_get_of r key l :
  _store r !! key = Some l -> fst (get key r) = l.
Proof. intros Hl. unfold get, dict_get. cbn. by rewrite Hl. Qed.

Lemma append_writes key role content r :
  is_Some (_store (append key role content r) !! key).
Proof.
  unfold append, dict_setdefault.
  destruct (_store r !! key) as [l|] eqn:Hl;
    match goal with
    | |- context [if ?c then _ else _] => destruct c
    end; cbn [_store]; rewrite lookup_insert_eq; eauto.
Qed.

Lemma bounded_step r o :
  0 < _max r -> bounded r -> bounded (step r o).
Proof.
  intros Hpos Hb. destruct o as [k|k ms|k ro c]; cbn [step].
  - exact Hb.
  - intros key l Hl. rewrite set_max.
    destruct (decide (k = key)) as [->|Hne].
    + unfold set in Hl. cbn [_store] in Hl. rewrite lookup_insert_eq in Hl.
      injection Hl as <-. rewrite slice_from_neg by exact Hpos.
      rewrite lastn_length. lia.
    + rewrite store_set_other in Hl by exact Hne. eauto.
  - intros key l Hl. rewrite append_max.
    destruct (decide (k = key)) as [->|Hne].
    + apply store_get_of in Hl. rewrite get_append_positive in Hl by exact Hpos.
      subst l. rewrite lastn_length. lia.
    + rewrite store_append_other in Hl by exact Hne. eauto.
Qed.

Lemma step_max r o : _max (step r o) = _max r.
Proof. destruct o; cbn [step]; [reflexivity | apply set_max | apply append_max]. Qed.

(** With a positive capacity, no sequence of calls takes a stored
    sequence past the capacity. *)
Lemma bounded_run ops r :
  0 < _max r -> bounded r -> bounded (run ops r).
Proof.
  revert r. induction ops as [|o ops IH]; intros r Hpos Hb; [exact Hb|].
  cbn [run fold_left]. apply IH.
  - by rewrite step_max.
  - by apply bounded_step.
Qed.

Lemma untouched_step r o key :
  written o <> Some key -> _store (step r o) !! key = _store r !! key.
Proof.
  destruct o as [k|k ms|k ro c]; cbn [written step]; intros Hw.
  - reflexivity.
  - apply store_set_other. congruence.
  - apply store_append_other. congruence.
Qed.

Lemma untouched_run ops r key :
  Forall (fun o => written o <> Some key) ops ->
  _store (run ops r) !! key = _store r !! key.
Proof.
  revert r. induction ops as [|o ops IH]; intros r Hall; [reflexivity|].
  inversion Hall as [|? ? Ho Hops]; subst.
  cbn [run fold_left]. change (fold_left step ops ?r0) with (run ops r0).
  rewrite IH by exact Hops. by apply untouched_step.
Qed.

(** C9 (the code departs from the claim). With capacity 0 the store keeps
    every appended message: [N] appends on a fresh key leave all [N]
    messages stored, so the stored sequence is longer than the capacity
    as soon as one message was appended. *)
Theorem C9_zero_capacity_keeps_everything (key : string) (msgs : list (string * string)) :
  let r := append_all key msgs (init 0) in
  fst (get key r) = map (fun m => message (fst m) (snd m)) msgs /\
  length (fst (get key r)) = length msgs.
Proof.
  cbv zeta.
  assert (Hgen : forall r, _max r = 0 ->
            fst (get key (append_all key msgs r)) =
            (fst (get key r) ++ map (fun m => message (fst m) (snd m)) msgs)%list).
  { induction msgs as [|[role content] msgs IH]; intros r Hz.
    - cbn. by rewrite app_nil_r.
    - cbn [append_all fold_left map fst snd].
      change (fold_left _ msgs ?r0) with (append_all key msgs r0).
      rewrite IH by (by rewrite append_max).
      rewrite get_append_zero by exact Hz. by rewrite <- app_assoc. }
  rewrite Hgen by reflexivity. unfold get, init, dict_get. cbn [_store fst].
  rewrite lookup_empty. cbn. split; [reflexivity | by rewrite length_map].
Qed.

(** The failing input of C9, run: one [append] on a repository of
    capacity 0 leaves one message stored. *)
Example zero_capacity_append :
  let r := append "s" "user" "hi" (init 0) in
  fst (get "s" r) = [message "user" "hi"] /\
  ~ Z.of_nat (length (fst (get "s" r))) <= _max r.
Proof.
  split; [vm_compute; reflexivity|].
  vm_compute. intros Hle. apply Hle. reflexivity.
Qed.

(** [set] has the same slice: capacity 0 keeps the whole list. *)
Example zero_capacity_set :
  fst (get "s" (set "s" [message "user" "a"; message "assistant" "b"] (init 0)))
  = [message "user" "a"; message "assistant" "b"].
Proof. vm_compute. reflexivity. Qed.

(** With capacity 2, three appends keep the last two messages. *)
Example capacity_two_appends :
  fst (get "s" (append_all "s" [("user", "a"); ("assistant", "b"); ("user", "c")]
                  (init 2)))
  = [message "assistant" "b"; message "user" "c"].
Proof. vm_compute. reflexivity. Qed.

(** C10. On a key that no [set] or [append] has written, [get] returns the
    empty list, leaves the repository as it was, and the key is still
    absent from the store afterwards. *)
Theorem C10_get_unwritten_key (max_messages : Z) (ops : list op) (key : string) :
  Forall (fun o => written o <> Some key) ops ->
  let r := run ops (init max_messages) in
  get key r = ([], r) /\ _store (snd (get key r)) !! key = None.
Proof.
  intros Hall r.
  assert (Hnone : _store r !! key = None).
  { subst r. rewrite untouched_run by exact Hall. apply lookup_empty. }
  unfold get, dict_get. cbn [snd]. rewrite Hnone. split; reflexivity.
Qed.

End ChatHistoryFacts.

Lemma C10_get_unwritten_key_witness :
  let r := ChatHistory.run
             [ChatHistory.OpAppend "alice" "user" "hi";
              ChatHistory.OpSet "bob" [ChatHistory.message "user" "yo"];
              ChatHistory.OpGet "carol"]
             (ChatHistory.init 50) in
  ChatHistory.get "carol" r = ([], r) /\
  ChatHistory._store (snd (ChatHistory.get "carol" r)) !! "carol" = None.
Proof.
  apply (C10_get_unwritten_key 50
           [ChatHistory.OpAppend "alice" "user" "hi";
            ChatHistory.OpSet "bob" [ChatHistory.message "user" "yo"];
            ChatHistory.OpGet "carol"] "carol").
  repeat constructor; cbn; congruence.
Defined.

(* ===================================================================== *)
(** * The transactional boundary                                          *)
(* ===================================================================== *)

Section TransactionFacts.
Import TransactionUtil.
Context {A : Type}.
Implicit Types (fn : Session -> result A * Session) (s : Session).

Lemma rollback_closed s : transaction (rollback s) = false.
Proof. unfold rollback. destruct (transaction s) eqn:Ht; [reflexivity | exact Ht]. Qed.

Lemma rollback_idem s : rollback (rollback s) = rollback s.
Proof.
  unfold rollback at 1. by rewrite rollback_closed.
Qed.

Lemma begin_open s : transaction (begin s) = true.
Proof. reflexivity. Qed.

(** Inside an open transaction the wrapper is transparent. *)
Lemma transactional_nested name fn s :
  transaction s = true -> transactional name fn s = fn s.
Proof.
  intros Ht. unfold transactional, with_nullcontext. rewrite Ht. cbn [negb].
  destruct (fn s) as [[v|e] s1]; [reflexivity|].
  by destruct (is_StaleDataError e).
Qed.

Lemma transactional_outermost name fn s :
  transaction s = false ->
  transactional name fn s =
  match fn (begin s) with
  | (Ok v, s1) =>
      if transaction s1 then
        match flush_error s1 with
        | None => (Ok v, committed s1)
        | Some e => (Raise (boundary_error name e), rollback s1)
        end
      else (Ok v, s1)
  | (Raise e, s1) => (Raise (boundary_error name e), rollback s1)
  end.
Proof.
  intros Ht. unfold transactional, with_begin, commit, boundary_error. rewrite Ht.
  cbn [negb].
  destruct (fn (begin s)) as [[v|e] s1].
  - destruct (transaction s1); [|reflexivity].
    destruct (flush_error s1) as [e|]; [|reflexivity].
    rewrite rollback_idem. by destruct (is_StaleDataError e).
  - rewrite rollback_idem. by destruct (is_StaleDataError e).
Qed.

(** C4. A wrapped operation called while a transaction is open joins it:
    the wrapper adds nothing, neither a begin, a commit nor a rollback,
    and whatever the operation raises, a [StaleDataError] included, goes
    on unchanged. Called without an open transaction the wrapper begins
    one, commits it when the operation returns, and otherwise rolls back;
    there a [StaleDataError], from the operation or from the commit,
    leaves as a [ConcurrencyException]. So of two nested wrappers only
    the outer one acts. *)
Theorem C4_transactional_boundaries (name : string) fn s :
  (transaction s = true -> transactional name fn s = fn s) /\
  (transaction s = false ->
   forall v s1, fn (begin s) = (Ok v, s1) ->
     transaction s1 = true -> flush_error s1 = None ->
     transactional name fn s = (Ok v, committed s1)) /\
  (transaction s = false ->
   forall e s1, fn (begin s) = (Raise e, s1) ->
     transactional name fn s = (Raise (boundary_error name e), rollback s1)) /\
  (transaction s = false ->
   forall v e s1, fn (begin s) = (Ok v, s1) ->
     transaction s1 = true -> flush_error s1 = Some e ->
     transactional name fn s = (Raise (boundary_error name e), rollback s1)) /\
  (forall inner,
     transactional name (transactional inner fn) s = transactional name fn s).
Proof.
  split; [apply transactional_nested|].
  split; [intros Ht v s1 Hfn Hopen Hflush;
          rewrite transactional_outermost, Hfn, Hopen, Hflush by exact Ht;
          reflexivity|].
  split; [intros Ht e s1 Hfn;
          rewrite transactional_outermost, Hfn by exact Ht; reflexivity|].
  split; [intros Ht v e s1 Hfn Hopen Hflush;
          rewrite transactional_outermost, Hfn, Hopen, Hflush by exact Ht;
          reflexivity|].
  intros inner. destruct (transaction s) eqn:Ht.
  - rewrite !transactional_nested by exact Ht. reflexivity.
  - rewrite (transactional_outermost name fn s) by exact Ht.
    rewrite (transactional_outermost name (transactional inner fn) s) by exact Ht.
    rewrite (transactional_nested inner fn (begin s)) by apply begin_open.
    reflexivity.
Qed.

End TransactionFacts.

(* ===================================================================== *)
(** * Retrying on conflicts                                               *)
(* ===================================================================== *)

Section RetryFacts.
Import TransactionUtil.
Context {A : Type}.
Variable max_retries : Z.
Variable backoff_sec : Q.
Variable fn : Session -> result A * Session.
Hypothesis backoff_nonneg : (0 <= backoff_sec)%Q.

Lemma sleep_ok_attempt attempt :
  1 <= attempt -> sleep_ok (backoff_sec * inject_Z attempt) = true.
Proof.
  intros Ha. unfold sleep_ok. apply Qle_bool_iff.
  apply Qmult_le_0_compat; [exact backoff_nonneg|].
  unfold Qle. cbn. lia.
Qed.

Lemma conflict_rounds_0 first : conflict_rounds backoff_sec first 0 = [].
Proof. reflexivity. Qed.

Lemma conflict_rounds_S first m :
  conflict_rounds backoff_sec first (S m) =
  (conflict_round backoff_sec first ++ conflict_rounds backoff_sec (first + 1) m)%list.
Proof.
  unfold conflict_rounds. rewrite seqZ_cons by lia.
  replace (Z.pred (Z.of_nat (S m))) with (Z.of_nat m) by lia.
  replace (Z.succ first) with (first + 1) by lia.
  reflexivity.
Qed.

Lemma invocations_app tr1 tr2 :
  invocations (tr1 ++ tr2) = (invocations tr1 + invocations tr2)%nat.
Proof. unfold invocations. by rewrite List.filter_app, length_app. Qed.

Lemma invocations_rounds first m :
  invocations (conflict_rounds backoff_sec first m) = m.
Proof.
  revert first. induction m as [|m IH]; intros first; [reflexivity|].
  rewrite conflict_rounds_S, invocations_app, IH. reflexivity.
Qed.


(** One pass through the loop body. *)
Lemma retry_loop_step attempt rest s :
  retry_loop max_retries backoff_sec fn (attempt :: rest) s =
  match fn s with
  | (Ok v, s1) => (Ok (Some v), s1, [Invoked attempt])
  | (Raise e, s1) =>
      if is_ConcurrencyException e then
        if attempt =? max_retries then
          (Raise e, rollback s1, [Invoked attempt; RolledBack])
        else if sleep_ok (backoff_sec * inject_Z attempt) then
          let '(r, s3, tr) :=
            retry_loop max_retries backoff_sec fn rest (rollback s1) in
          (r, s3, (conflict_round backoff_sec attempt ++ tr)%list)
        else
          (Raise (ValueError "sleep length must be non-negative"), rollback s1,
           [Invoked attempt; RolledBack])
      else (Raise e, s1, [Invoked attempt])
  end.
Proof. reflexivity. Qed.


End RetryFacts.


Lemma C4_transactional_boundaries_witness :
  TransactionUtil.transactional "update_event" Sample.stale_update
    (TransactionUtil.begin Sample.idle)
  = (Raise StaleDataError, TransactionUtil.begin Sample.idle) /\
  TransactionUtil.transactional "update_event" Sample.ok_update Sample.idle
  = (Ok 7, TransactionUtil.committed (TransactionUtil.begin Sample.idle)) /\
  TransactionUtil.transactional "update_event" Sample.stale_update Sample.idle
  = (Raise (ConcurrencyException
              "Resource was updated by another transaction in method update_event."
              (Some StaleDataError)),
     TransactionUtil.rollback (TransactionUtil.begin Sample.idle)).
Proof.
  split; [|split].
  - apply (proj1 (C4_transactional_boundaries "update_event" Sample.stale_update
                    (TransactionUtil.begin Sample.idle))).
    reflexivity.
  - apply (proj1 (proj2 (C4_transactional_boundaries "update_event" Sample.ok_update
                           Sample.idle)));
      reflexivity.
  - apply (proj1 (proj2 (proj2 (C4_transactional_boundaries "update_event"
                                  Sample.stale_update Sample.idle)))
             eq_refl StaleDataError (TransactionUtil.begin Sample.idle)).
    reflexivity.
Defined.


(** The composed wrappers on an update that loses two rounds: three calls,
    two rollbacks by the transactional boundary, waits of 0.1 s and 0.2 s,
    and the result of the third call. *)
Example retry_transactional_run :
  let '(r, s', tr) :=
    TransactionUtil.retry_conflicts 3 (1 # 10)
      (TransactionUtil.transactional "update_event" Sample.flaky_update)
      Sample.idle in
  r = Ok (Some 7) /\
  TransactionUtil.journal s' =
    [TransactionUtil.Begin; TransactionUtil.Rollback;
     TransactionUtil.Begin; TransactionUtil.Rollback;
     TransactionUtil.Begin; TransactionUtil.Commit] /\
  tr = [TransactionUtil.Invoked 1; TransactionUtil.RolledBack;
        TransactionUtil.Slept (1 # 10);
        TransactionUtil.Invoked 2; TransactionUtil.RolledBack;
        TransactionUtil.Slept (2 # 10);
        TransactionUtil.Invoked 3].
Proof. vm_compute. repeat split. Qed.

(* ===================================================================== *)
(** * Facts about [strip], [in] and [int]                                 *)
(* ===================================================================== *)

Section StringFacts.

Lemma string_app_nil (b : string) : "" ++ b = b.
Proof. reflexivity. Qed.

Lemma string_app_cons (c : ascii) (a b : string) :
  String c a ++ b = String c (a ++ b).
Proof. reflexivity. Qed.

Lemma string_app_assoc (a b c : string) : (a ++ b) ++ c = a ++ (b ++ c).
Proof.
  induction a as [|x a IH]; [reflexivity|].
  by rewrite !string_app_cons, IH.
Qed.

Lemma string_app_nonempty (a b : string) : b <> "" -> a ++ b <> "".
Proof. destruct a; [auto | rewrite string_app_cons; discriminate]. Qed.

Lemma lstrip_fixed (c : ascii) (s : string) :
  Py.isspace c = false -> Py.lstrip (String c s) = String c s.
Proof. intros Hc. cbn. by rewrite Hc. Qed.

Lemma rstrip_head (c : ascii) (s : string) :
  Py.isspace c = false -> exists r, Py.rstrip (String c s) = String c r.
Proof.
  intros Hc. cbn. destruct (Py.rstrip s); [rewrite Hc|]; eauto.
Qed.

Lemma rstrip_idem (s : string) : Py.rstrip (Py.rstrip s) = Py.rstrip s.
Proof.
  induction s as [|c s IH]; [reflexivity|].
  cbn. destruct (Py.rstrip s) as [|d r] eqn:Hr.
  - destruct (Py.isspace c) eqn:Hc; [reflexivity|]. cbn. by rewrite Hc.
  - change (Py.rstrip (String c (String d r)))
      with (match Py.rstrip (String d r) with
            | EmptyString =>
                if Py.isspace c then EmptyString else String c EmptyString
            | r0 => String c r0
            end).
    by rewrite IH.
Qed.

Lemma lstrip_head (s : string) :
  Py.lstrip s = "" \/ exists c r, Py.lstrip s = String c r /\ Py.isspace c = false.
Proof.
  induction s as [|c s IH]; [by left|].
  cbn. destruct (Py.isspace c) eqn:Hc; [exact IH|]. right. eauto.
Qed.

(** Stripping twice is stripping once. *)
Lemma strip_idem (s : string) : Py.strip (Py.strip s) = Py.strip s.
Proof.
  unfold Py.strip. destruct (lstrip_head s) as [He|(c & r & He & Hc)]; rewrite He.
  - reflexivity.
  - destruct (rstrip_head c r Hc) as [r' Hr]. rewrite Hr.
    rewrite (lstrip_fixed c r' Hc), <- Hr. apply rstrip_idem.
Qed.

Lemma lstrip_app_fixed (x m : string) :
  m <> "" -> Py.lstrip m = m -> Py.lstrip (x ++ m) = Py.lstrip x ++ m.
Proof.
  intros Hne Hm. induction x as [|c x IH]; [exact Hm|].
  rewrite string_app_cons. cbn [Py.lstrip].
  destruct (Py.isspace c); [exact IH | reflexivity].
Qed.

Lemma rstrip_app_fixed (x m : string) :
  m <> "" -> Py.rstrip m = m -> Py.rstrip (x ++ m) = x ++ m.
Proof.
  intros Hne Hm. induction x as [|c x IH]; [exact Hm|].
  rewrite string_app_cons. cbn [Py.rstrip]. rewrite IH.
  destruct (x ++ m) eqn:Hx; [|reflexivity].
  by apply string_app_nonempty in Hx.
Qed.

(** A text that [strip] leaves alone survives at the end of a stripped
    concatenation. *)
Lemma strip_app_fixed (x m : string) :
  m <> "" -> Py.lstrip m = m -> Py.rstrip m = m ->
  Py.strip (x ++ m) = Py.lstrip x ++ m.
Proof.
  intros Hne Hl Hr. unfold Py.strip.
  rewrite lstrip_app_fixed by assumption. by apply rstrip_app_fixed.
Qed.

Lemma prefix_refl (m : string) : String.prefix m m = true.
Proof.
  induction m as [|c m IH]; [reflexivity|].
  cbn. destruct (ascii_dec c c); [exact IH | congruence].
Qed.

Lemma contains_refl (m : string) : Py.contains m m = true.
Proof. destruct m; cbn [Py.contains]; by rewrite prefix_refl. Qed.

Lemma contains_app_r (x m : string) : Py.contains m (x ++ m) = true.
Proof.
  induction x as [|c x IH]; [apply contains_refl|].
  rewrite string_app_cons. cbn [Py.contains]. rewrite IH. apply orb_true_r.
Qed.


End StringFacts.

(* ===================================================================== *)
(** * The embedding service                                               *)
(* ===================================================================== *)

Section EmbeddingFacts.
Context {F P : Type} {FO : FloatOps F} {BE : Backend F P}.
Variable cfg : Config F.
Implicit Types (self : Embedding.EmbeddingServiceImpl) (w : World F P).




End EmbeddingFacts.



(* ===================================================================== *)
(** * Similarity search                                                   *)
(* ===================================================================== *)

Section EventRepoFacts.
Context {F P : Type} {FO : FloatOps F} {BE : Backend F P}.
Implicit Types (w : World F P) (q : list F).



(** The rows the statement ranks: those that carry an embedding. *)
Lemma search_by_embedding_outcome q k probes w :
  fst (EventRepo.search_by_embedding q k probes w) =
  EventRepo.limit k
    (EventRepo.order_by_distance q (List.filter EventRepo.has_embedding (events_table w))).
Proof.
  unfold EventRepo.search_by_embedding, EventRepo.select_nearest, bind, read_events.
  destruct probes as [p|]; cbn;
    destruct (EventRepo.limit k _) as [res|e]; reflexivity.
Qed.


End EventRepoFacts.



(** The nearest events come first. *)
Example search_orders_by_distance :
  fst (EventRepo.search_by_embedding [1; 0; 0]%Q 2 (Some 10)
         (Sample.world [Sample.party (Some [3; 4; 0]%Q) 1;
                        Sample.party None 2;
                        Sample.party (Some [1; 0; 0]%Q) 3;
                        Sample.party (Some [0; 1; 0]%Q) 4] 50))
  = Ok [Sample.party (Some [1; 0; 0]%Q) 3; Sample.party (Some [3; 4; 0]%Q) 1].
Proof. vm_compute. reflexivity. Qed.

(* ===================================================================== *)
(** * The query engine                                                    *)
(* ===================================================================== *)

Section ModelServiceFacts.
Context {F P : Type} {FO : FloatOps F} {BE : Backend F P}.
Variable cfg : Config F.
Implicit Types (self : ModelService.ModelServiceImpl) (w : World F P).

(** ** What keeps the history *)

Lemma keeps_history_ret {A} (a : A) : keeps_history (F:=F) (P:=P) (ret a).
Proof. intros w. reflexivity. Qed.

Lemma keeps_history_raise {A} (e : exn) : keeps_history (F:=F) (P:=P) (A:=A) (raise e).
Proof. intros w. reflexivity. Qed.

Lemma keeps_history_bind {A B} (m : M (World F P) A) (k : A -> M (World F P) B) :
  keeps_history m -> (forall a, keeps_history (k a)) -> keeps_history (bind m k).
Proof.
  intros Hm Hk w. unfold bind. specialize (Hm w).
  destruct (m w) as [[a|e] w1]; cbn [snd] in *; [|exact Hm].
  by rewrite Hk.
Qed.

Lemma keeps_history_try {A} (m : M (World F P) A) :
  keeps_history m -> keeps_history (try m).
Proof.
  intros Hm w. unfold try. specialize (Hm w). by destruct (m w).
Qed.

Lemma keeps_history_embeddings req :
  keeps_history (client_embeddings_create (F:=F) (P:=P) req).
Proof.
  intros w. unfold client_embeddings_create. by destruct (embeddings_create _ _).
Qed.

Lemma keeps_history_chat req :
  keeps_history (client_chat_completions_create (F:=F) (P:=P) req).
Proof.
  intros w. unfold client_chat_completions_create.
  by destruct (chat_completions_create _ _).
Qed.

Lemma keeps_history_get key : keeps_history (history_get (F:=F) (P:=P) key).
Proof. intros w. reflexivity. Qed.

Lemma keeps_history_create_embedding es text :
  keeps_history (Embedding.create_embedding cfg es text).
Proof.
  unfold Embedding.create_embedding.
  destruct (negb _); [apply keeps_history_raise|].
  apply keeps_history_bind; [apply keeps_history_try, keeps_history_embeddings|].
  intros [resp|e]; [|apply keeps_history_raise].
  destruct (data resp) as [|item rest]; [apply keeps_history_raise|].
  destruct (negb _); [apply keeps_history_raise|].
  destruct (is_zero _); [apply keeps_history_raise | apply keeps_history_ret].
Qed.

Lemma keeps_history_extract self prompt :
  keeps_history (ModelService.extract_requested_event_count cfg self prompt).
Proof.
  unfold ModelService.extract_requested_event_count.
  apply keeps_history_bind; [apply keeps_history_chat|].
  intros resp. destruct (ModelService.first_content resp "0") as [c|];
    [|apply keeps_history_raise].
  destruct (Py.int _); [apply keeps_history_ret | apply keeps_history_raise].
Qed.

Lemma keeps_history_search (q : list F) k probes :
  keeps_history (P:=P) (EventRepo.search_by_embedding q k probes).
Proof.
  unfold EventRepo.search_by_embedding, EventRepo.select_nearest.
  apply keeps_history_bind; [destruct probes; intros w; reflexivity|].
  intros _. apply keeps_history_bind.
  - apply keeps_history_bind; [intros w; reflexivity|].
    intros rows. destruct (EventRepo.limit _ _);
      [apply keeps_history_ret | apply keeps_history_raise].
  - intros res. apply keeps_history_ret.
Qed.

Lemma bind_elim {A B} (m : M (World F P) A) (k : A -> M (World F P) B)
    (Q : result B * World F P -> Prop) w :
  (forall e w1, m w = (Raise e, w1) -> Q (Raise e, w1)) ->
  (forall a w1, m w = (Ok a, w1) -> Q (k a w1)) ->
  Q (bind m k w).
Proof. intros He Ha. unfold bind. destruct (m w) as [[a|e] w1]; auto. Qed.

Lemma keeps_history_at {A} (m : M (World F P) A) w r w1 :
  keeps_history m -> m w = (r, w1) -> history w1 = history w.
Proof. intros Hk Hm. specialize (Hk w). by rewrite Hm in Hk. Qed.

(** The part of [query_prompt] that reads the history keeps it. *)
Lemma keeps_history_recent self session_key :
  keeps_history
    (if Py.truthy session_key && ModelService.history_repo self then
       prior <- history_get (F:=F) (P:=P) session_key ;;
       let recent :=
         match prior with
         | [] => []
         | _ => Py.slice_from prior (- MAX_HISTORY_IN_CONTEXT cfg)
         end in
       let count := length recent in
       match recent with
       | [] => ret ("", count)
       | _ => ret (Py.join nl (ModelService.history_lines recent), count)
       end
     else ret ("", 0%nat)).
Proof.
  destruct (_ && _); [|apply keeps_history_ret].
  apply keeps_history_bind; [apply keeps_history_get|].
  intros prior. cbv zeta.
  destruct (match prior with [] => [] | _ => _ end); apply keeps_history_ret.
Qed.

(** The history after [query_prompt], by outcome. *)
Lemma query_prompt_history self (user_prompt session_key : string) w :
  let run := ModelService.query_prompt cfg self user_prompt session_key w in
  history (snd run) =
  match fst run with
  | Raise _ => history w
  | Ok answer =>
      if Py.truthy session_key && ModelService.history_repo self
      then ChatHistory.append session_key "assistant" answer
             (ChatHistory.append session_key "user" user_prompt (history w))
      else history w
  end.
Proof.
  cbv zeta.
  set (Q := fun rw : result string * World F P =>
              history (snd rw) =
              match fst rw with
              | Raise _ => history w
              | Ok answer =>
                  if Py.truthy session_key && ModelService.history_repo self
                  then ChatHistory.append session_key "assistant" answer
                         (ChatHistory.append session_key "user" user_prompt (history w))
                  else history w
              end).
  change (Q (ModelService.query_prompt cfg self user_prompt session_key w)).
  unfold ModelService.query_prompt.
  apply bind_elim.
  { intros e w1 E. unfold Q. cbn [fst snd].
    eapply keeps_history_at; [apply keeps_history_create_embedding | exact E]. }
  intros vec w1 E1.
  assert (H1 : history w1 = history w)
    by (eapply keeps_history_at; [apply keeps_history_create_embedding | exact E1]).
  apply bind_elim.
  { intros e w2 E. unfold Q. cbn [fst snd]. rewrite <- H1.
    eapply keeps_history_at; [apply keeps_history_extract | exact E]. }
  intros k w2 E2.
  assert (H2 : history w2 = history w)
    by (rewrite <- H1; eapply keeps_history_at; [apply keeps_history_extract | exact E2]).
  apply bind_elim.
  { intros e w3 E. unfold Q. cbn [fst snd]. rewrite <- H2.
    eapply keeps_history_at; [apply keeps_history_search | exact E]. }
  intros events w3 E3.
  assert (H3 : history w3 = history w)
    by (rewrite <- H2; eapply keeps_history_at; [apply keeps_history_search | exact E3]).
  apply bind_elim.
  { intros e w4 E. unfold Q. cbn [fst snd]. rewrite <- H3.
    eapply keeps_history_at; [apply (keeps_history_recent self session_key) | exact E]. }
  intros [history_block count] w4 E4.
  assert (H4 : history w4 = history w)
    by (rewrite <- H3; eapply keeps_history_at;
        [apply (keeps_history_recent self session_key) | exact E4]).
  apply bind_elim.
  { intros e w5 E. unfold Q. cbn [fst snd]. rewrite <- H4.
    eapply keeps_history_at; [apply keeps_history_chat | exact E]. }
  intros resp w5 E5.
  assert (H5 : history w5 = history w)
    by (rewrite <- H4; eapply keeps_history_at; [apply keeps_history_chat | exact E5]).
  unfold Q. destruct (Py.truthy session_key && ModelService.history_repo self).
  - unfold bind, history_append, ret. cbn [fst snd history]. by rewrite H5.
  - unfold bind, ret. cbn [fst snd]. exact H5.
Qed.

(** C3. Whatever fails in [query_prompt], the embedding, the count
    extraction, the retrieval or the completion call, the history is
    what it was before the call. When the call succeeds and history
    tracking is on (a non-empty session key and a repository), the history
    is the old one after two [append]s: the user's prompt with role
    [user], then the answer with role [assistant]; with tracking off it is
    unchanged. Where the capacity has room for two more messages, the
    stored sequence of the session is the old one followed by exactly
    these two messages. *)
Theorem C3_history_only_after_success self (user_prompt session_key : string) w :
  let run := ModelService.query_prompt cfg self user_prompt session_key w in
  history (snd run) =
  match fst run with
  | Raise _ => history w
  | Ok answer =>
      if Py.truthy session_key && ModelService.history_repo self
      then ChatHistory.append session_key "assistant" answer
             (ChatHistory.append session_key "user" user_prompt (history w))
      else history w
  end /\
  (forall answer,
     fst run = Ok answer ->
     Py.truthy session_key && ModelService.history_repo self = true ->
     0 < ChatHistory._max (history w) ->
     (length (fst (ChatHistory.get session_key (history w))) + 2
      <= Z.to_nat (ChatHistory._max (history w)))%nat ->
     fst (ChatHistory.get session_key (history (snd run))) =
     (fst (ChatHistory.get session_key (history w))
      ++ [ChatHistory.message "user" user_prompt;
          ChatHistory.message "assistant" answer])%list).
Proof.
  cbv zeta. split; [apply query_prompt_history|].
  intros answer Hok Htrack Hpos Hroom.
  pose proof (query_prompt_history self user_prompt session_key w) as Hh.
  cbv zeta in Hh. rewrite Hok, Htrack in Hh. rewrite Hh.
  rewrite get_append_positive by (by rewrite append_max).
  rewrite get_append_positive by exact Hpos.
  rewrite append_max.
  rewrite (lastn_all _ (_ ++ [ChatHistory.message "user" user_prompt])%list)
    by (rewrite length_app; cbn [length]; lia).
  rewrite lastn_all by (rewrite !length_app; cbn [length]; lia).
  by rewrite <- app_assoc.
Qed.

(** ** The count extraction *)


(** ** The context sent to the completion provider *)

Lemma or_else_some_empty (s : string) : Py.or_else (Some s) "" = s.
Proof. by destruct s. Qed.

Lemma sent_after_answer req (answer_of : ChatResponse -> string)
    (tracking : bool) (session_key user_prompt : string) w :
  last (sent (snd ((resp <- client_chat_completions_create (F:=F) (P:=P) req ;;
                    ((if tracking then
                        history_append session_key "user" user_prompt ;;;
                        history_append session_key "assistant" (answer_of resp)
                      else ret tt) ;;;
                     ret (answer_of resp))) w))) = Some req.
Proof.
  unfold bind, client_chat_completions_create.
  destruct (chat_completions_create req (provider w)) as [[resp|e] p];
    [destruct tracking|]; cbn; apply last_snoc.
Qed.

(** The system message when nothing was retrieved and no history is shown. *)
Lemma build_messages_no_context (sys user_prompt : string) :
  ModelService.build_messages (Some sys) "No context available." user_prompt =
  [ChatHistory.message "system"
     (Py.lstrip (Py.strip sys ++ nl ++ nl) ++ "No context available.");
   ChatHistory.message "user" user_prompt].
Proof.
  unfold ModelService.build_messages. rewrite or_else_some_empty.
  change (Py.strip (Py.or_else (Some "No context available.") "no events retrieved"))
    with "No context available.".
  rewrite <- (string_app_assoc nl nl), <- string_app_assoc.
  rewrite strip_app_fixed by (try discriminate; reflexivity).
  reflexivity.
Qed.

(** C2 (amended). When the search returns no events and no history is
    present, the system message sent to the completion provider ends with
    the marker [No context available.]: the context part is that marker,
    not the empty string. *)
Theorem C2_empty_retrieval_marker self (user_prompt session_key : string)
    w vec w1 k w2 w3 :
  Embedding.create_embedding cfg (ModelService.embedding_service self) user_prompt w
    = (Ok vec, w1) ->
  ModelService.extract_requested_event_count cfg self user_prompt w1 = (Ok k, w2) ->
  EventRepo.search_by_embedding vec k (Some 10) w2 = (Ok [], w3) ->
  (Py.truthy session_key && ModelService.history_repo self = false \/
   fst (ChatHistory.get session_key (history w)) = []) ->
  exists req system_text,
    last (sent (snd (ModelService.query_prompt cfg self user_prompt session_key w)))
      = Some req /\
    chat_messages req =
      [ChatHistory.message "system" system_text;
       ChatHistory.message "user" user_prompt] /\
    system_text =
      Py.lstrip (Py.strip (ModelService.sys_prompt self) ++ nl ++ nl)
      ++ "No context available." /\
    Py.contains "No context available." system_text = true.
Proof.
  intros E1 E2 E3 Hhist.
  assert (H3 : history w3 = history w).
  { rewrite <- (keeps_history_at _ _ _ _ (keeps_history_create_embedding _ _) E1).
    rewrite <- (keeps_history_at _ _ _ _ (keeps_history_extract _ _) E2).
    exact (keeps_history_at _ _ _ _ (keeps_history_search _ _ _) E3). }
  eexists _, _. split; [|split; [|split; [reflexivity|]]].
  - unfold ModelService.query_prompt.
    unfold bind at 1. rewrite E1.
    unfold bind at 1. rewrite E2.
    unfold bind at 1. rewrite E3.
    unfold bind at 1.
    match goal with
    | |- context [(if ?c then ?a else ?b) w3] =>
        assert (Hrecent : (if c then a else b) w3 = (Ok ("", 0%nat), w3))
    end.
    { destruct Hhist as [Hoff|Hempty].
      - rewrite Hoff. reflexivity.
      - destruct (_ && _); [|reflexivity].
        unfold bind, history_get. rewrite H3.
        destruct (ChatHistory.get session_key (history w)) as [prior h] eqn:Hget.
        cbn [fst] in Hempty. subst prior.
        unfold ChatHistory.get in Hget. injection Hget as _ <-.
        cbn. unfold ret. do 2 f_equal. destruct w3. cbn in *. by rewrite H3. }
    rewrite Hrecent.
    change (ModelService.combined_context (Py.join nl (map format_event [])) "" 0)
      with "No context available.".
    apply (sent_after_answer _
             (fun resp => Py.strip (Py.or_else (ModelService.first_content resp "") ""))).
  - cbn [chat_messages]. apply build_messages_no_context.
  - apply contains_app_r.
Qed.

End ModelServiceFacts.



(** A text that is no integer literal ends the request with [ValueError]. *)
Example count_in_words_raises :
  fst (ModelService.extract_requested_event_count (BE := Sample.count_in_words)
         Sample.config Sample.service "show me two events" (Sample.world [] 50))
  = Raise (ValueError "invalid literal for int() with base 10").
Proof. vm_compute. reflexivity. Qed.

Lemma C2_empty_retrieval_marker_witness :
  exists req system_text,
    last (sent (snd (ModelService.query_prompt (BE := Sample.healthy)
                       Sample.config Sample.service "any jazz tonight?" "session-1"
                       (Sample.world [] 50))))
      = Some req /\
    chat_messages req =
      [ChatHistory.message "system" system_text;
       ChatHistory.message "user" "any jazz tonight?"] /\
    system_text =
      Py.lstrip (Py.strip (ModelService.sys_prompt Sample.service) ++ nl ++ nl)
      ++ "No context available." /\
    Py.contains "No context available." system_text = true.
Proof.
  pose (w0 := Sample.world [] 50).
  pose (r1 := Embedding.create_embedding (BE := Sample.healthy) Sample.config
                (ModelService.embedding_service Sample.service) "any jazz tonight?" w0).
  pose (r2 := ModelService.extract_requested_event_count (BE := Sample.healthy)
                Sample.config Sample.service "any jazz tonight?" (snd r1)).
  pose (r3 := EventRepo.search_by_embedding [1; 0; 0]%Q 2 (Some 10) (snd r2)).
  apply (C2_empty_retrieval_marker (BE := Sample.healthy) Sample.config Sample.service
           "any jazz tonight?" "session-1" w0
           [1; 0; 0]%Q (snd r1) 2 (snd r2) (snd r3)).
  - vm_compute. reflexivity.
  - vm_compute. reflexivity.
  - vm_compute. reflexivity.
  - right. vm_compute. reflexivity.
Defined.

(** C2 as stated fails: with nothing retrieved and no history, the system
    message does not contain the text [no events retrieved]. *)
Lemma C2_marker_text_differs :
  exists req system_text,
    last (sent (snd (ModelService.query_prompt (BE := Sample.healthy)
                       Sample.config Sample.service "any jazz tonight?" "session-1"
                       (Sample.world [] 50))))
      = Some req /\
    ModelService.system_content req = Some system_text /\
    Py.contains "no events retrieved" system_text = false.
Proof.
  eexists _, _. split; [vm_compute; reflexivity|].
  split; vm_compute; reflexivity.
Qed.

(** A successful round trip leaves the two messages in the history. *)
Example history_after_success :
  let run := ModelService.query_prompt (BE := Sample.healthy)
               Sample.config Sample.service "any jazz tonight?" "session-1"
               (Sample.world [] 50) in
  fst run = Ok "none found" /\
  fst (ChatHistory.get "session-1" (history (snd run))) =
    [ChatHistory.message "user" "any jazz tonight?";
     ChatHistory.message "assistant" "none found"].
Proof. vm_compute. split; reflexivity. Qed.

(** A completion that fails leaves the history as it was. *)
Example history_after_failure :
  let run := ModelService.query_prompt (BE := Sample.answer_down)
               Sample.config Sample.service "any jazz tonight?" "session-1"
               (Sample.world [] 50) in
  fst run = Raise (ProviderError "APITimeoutError") /\
  history (snd run) = history (Sample.world [] 50).
Proof. vm_compute. split; reflexivity. Qed.

Lemma C3_history_only_after_success_witness :
  fst (ChatHistory.get "session-1"
         (history (snd (ModelService.query_prompt (BE := Sample.healthy)
                          Sample.config Sample.service "any jazz tonight?" "session-1"
                          (Sample.world [] 50))))) =
  (fst (ChatHistory.get "session-1" (history (Sample.world [] 50)))
   ++ [ChatHistory.message "user" "any jazz tonight?";
       ChatHistory.message "assistant" "none found"])%list.
Proof.
  apply (proj2 (C3_history_only_after_success (BE := Sample.healthy)
                  Sample.config Sample.service "any jazz tonight?" "session-1"
                  (Sample.world [] 50)) "none found").
  - vm_compute. reflexivity.
  - vm_compute. reflexivity.
  - vm_compute. reflexivity.
  - vm_compute. lia.
Defined.

(* ===================================================================== *)
(** * More on the conversation history store                              *)
(* ===================================================================== *)

(** X1. With a positive capacity, whatever sequence of [get], [set] and
    [append] calls is made on a new repository, no session ever holds
    more messages than the capacity. *)
Theorem X1_history_within_capacity (max_messages : Z) (ops : list ChatHistory.op)
    (key : string) :
  0 < max_messages ->
  (length (fst (ChatHistory.get key (ChatHistory.run ops (ChatHistory.init max_messages))))
   <= Z.to_nat max_messages)%nat.
Proof.
  intros Hpos.
  assert (Hb : ChatHistory.bounded
                 (ChatHistory.run ops (ChatHistory.init max_messages))).
  { apply bounded_run; [exact Hpos | apply bounded_init]. }
  pose proof (bounded_get_of _ key Hb) as Hlen.
  assert (Hmax : forall l r, ChatHistory._max (ChatHistory.run l r) = ChatHistory._max r).
  { induction l as [|o l IH]; intros r; [reflexivity|].
    cbn [ChatHistory.run fold_left].
    change (fold_left ChatHistory.step l ?r0) with (ChatHistory.run l r0).
    by rewrite IH, step_max. }
  by rewrite Hmax in Hlen.
Qed.

Lemma X1_history_within_capacity_witness :
  (length (fst (ChatHistory.get "s"
                  (ChatHistory.run
                     [ChatHistory.OpAppend "s" "user" "a";
                      ChatHistory.OpSet "s" [ChatHistory.message "user" "b";
                                             ChatHistory.message "assistant" "c";
                                             ChatHistory.message "user" "d"];
                      ChatHistory.OpAppend "s" "assistant" "e"]
                     (ChatHistory.init 2))))
   <= Z.to_nat 2)%nat.
Proof. apply X1_history_within_capacity. lia. Defined.

(** X2. With a positive capacity, [N] appends on a key that was never
    written leave exactly the last [min N capacity] messages, in call
    order; what is gone was taken from the front. *)
Theorem X2_append_keeps_most_recent (key : string) (msgs : list (string * string))
    (r : ChatHistory.MemoryChatHistoryRepository) :
  0 < ChatHistory._max r ->
  ChatHistory._store r !! key = None ->
  let all := map (fun m => ChatHistory.message (fst m) (snd m)) msgs in
  let kept := fst (ChatHistory.get key (ChatHistory.append_all key msgs r)) in
  kept = Py.lastn (Z.to_nat (ChatHistory._max r)) all /\
  length kept = Nat.min (length msgs) (Z.to_nat (ChatHistory._max r)) /\
  exists evicted, all = (evicted ++ kept)%list.
Proof. intros Hpos Hfresh. by apply append_all_fresh. Qed.

Lemma X2_append_keeps_most_recent_witness :
  let all := map (fun m => ChatHistory.message (fst m) (snd m))
               [("user", "a"); ("assistant", "b"); ("user", "c")] in
  let kept := fst (ChatHistory.get "s"
                     (ChatHistory.append_all "s"
                        [("user", "a"); ("assistant", "b"); ("user", "c")]
                        (ChatHistory.init 2))) in
  kept = Py.lastn (Z.to_nat 2) all /\
  length kept = Nat.min 3 (Z.to_nat 2) /\
  exists evicted, all = (evicted ++ kept)%list.
Proof.
  apply (X2_append_keeps_most_recent "s"
           [("user", "a"); ("assistant", "b"); ("user", "c")] (ChatHistory.init 2)).
  - reflexivity.
  - reflexivity.
Defined.

(** X3. With a positive capacity, [set] followed by [get] on the same key
    gives back the last [min (len messages) capacity] of the given
    messages, so the given list itself when it fits. *)
Theorem X3_set_keeps_most_recent (key : string)
    (messages : list (gmap string string))
    (r : ChatHistory.MemoryChatHistoryRepository) :
  0 < ChatHistory._max r ->
  let stored := fst (ChatHistory.get key (ChatHistory.set key messages r)) in
  stored = Py.lastn (Z.to_nat (ChatHistory._max r)) messages /\
  length stored = Nat.min (length messages) (Z.to_nat (ChatHistory._max r)) /\
  ((length messages <= Z.to_nat (ChatHistory._max r))%nat -> stored = messages).
Proof.
  intros Hpos stored.
  assert (Hs : stored = Py.lastn (Z.to_nat (ChatHistory._max r)) messages).
  { subst stored. unfold ChatHistory.get, ChatHistory.set, ChatHistory.dict_get.
    cbn [fst ChatHistory._store]. rewrite lookup_insert_eq. cbn [default from_option id].
    by apply slice_from_neg. }
  split; [exact Hs|]. split.
  - by rewrite Hs, lastn_length.
  - intros Hfit. rewrite Hs. by apply lastn_all.
Qed.

Lemma X3_set_keeps_most_recent_witness :
  let stored :=
    fst (ChatHistory.get "s"
           (ChatHistory.set "s"
              [ChatHistory.message "user" "a"; ChatHistory.message "assistant" "b";
               ChatHistory.message "user" "c"]
              (ChatHistory.init 2))) in
  stored = Py.lastn (Z.to_nat 2)
             [ChatHistory.message "user" "a"; ChatHistory.message "assistant" "b";
              ChatHistory.message "user" "c"] /\
  length stored = Nat.min 3 (Z.to_nat 2) /\
  ((3 <= Z.to_nat 2)%nat ->
   stored = [ChatHistory.message "user" "a"; ChatHistory.message "assistant" "b";
             ChatHistory.message "user" "c"]).
Proof.
  apply (X3_set_keeps_most_recent "s"
           [ChatHistory.message "user" "a"; ChatHistory.message "assistant" "b";
            ChatHistory.message "user" "c"] (ChatHistory.init 2)).
  reflexivity.
Defined.

(** X4. Sessions do not interfere: an [append] or a [set] on one key
    leaves what [get] returns for every other key unchanged, whatever the
    capacity. *)
Theorem X4_sessions_are_isolated (key other role content : string)
    (messages : list (gmap string string))
    (r : ChatHistory.MemoryChatHistoryRepository) :
  key <> other ->
  fst (ChatHistory.get other (ChatHistory.append key role content r))
    = fst (ChatHistory.get other r) /\
  fst (ChatHistory.get other (ChatHistory.set key messages r))
    = fst (ChatHistory.get other r).
Proof.
  intros Hne. unfold ChatHistory.get, ChatHistory.dict_get. cbn [fst].
  by rewrite store_append_other, store_set_other.
Qed.

Lemma X4_sessions_are_isolated_witness :
  fst (ChatHistory.get "7" (ChatHistory.append "8" "user" "hola" (history Scenario.talked)))
    = fst (ChatHistory.get "7" (history Scenario.talked)) /\
  fst (ChatHistory.get "7" (ChatHistory.set "8" [] (history Scenario.talked)))
    = fst (ChatHistory.get "7" (history Scenario.talked)).
Proof. apply X4_sessions_are_isolated. discriminate. Defined.

(* ===================================================================== *)
(** * More on the transactional boundary and the retry wrapper            *)
(* ===================================================================== *)

Section MoreTransactionFacts.
Import TransactionUtil.
Context {A : Type}.
Implicit Types (fn : Session -> result A * Session) (s : Session).

Lemma committed_closed s : transaction (committed s) = false.
Proof. reflexivity. Qed.

Lemma rollback_noop s : transaction s = false -> rollback s = s.
Proof. intros Ht. unfold rollback. by rewrite Ht. Qed.

(** X15. A wrapped operation that is called without an open transaction
    never leaves one open behind it, whether it returns or raises. *)
Theorem X15_outermost_closes_transaction (name : string) fn s :
  transaction s = false ->
  transaction (snd (transactional name fn s)) = false.
Proof.
  intros Ht. rewrite transactional_outermost by exact Ht.
  destruct (fn (begin s)) as [[v|e] s1]; cbn [snd]; [|apply rollback_closed].
  destruct (transaction s1) eqn:Hs1; [|exact Hs1].
  destruct (flush_error s1); cbn [snd]; [apply rollback_closed | reflexivity].
Qed.

(** X16. The wrapper reports success only for a value that the operation
    returned; and when it opened the transaction itself and the operation
    left it open, only after the commit went through: nothing was left to
    fail in the flush, and the session it hands back is the committed one. *)
Theorem X16_success_means_committed (name : string) fn s v s' :
  transactional name fn s = (Ok v, s') ->
  exists s1,
    fn (if transaction s then s else begin s) = (Ok v, s1) /\
    (transaction s = false -> transaction s1 = true ->
     flush_error s1 = None /\ s' = committed s1).
Proof.
  intros Hrun. destruct (transaction s) eqn:Ht.
  - rewrite transactional_nested in Hrun by exact Ht.
    exists s'. split; [exact Hrun | discriminate].
  - rewrite transactional_outermost in Hrun by exact Ht.
    destruct (fn (begin s)) as [[v1|e] s1]; [|discriminate].
    exists s1. destruct (transaction s1) eqn:Hs1.
    + destruct (flush_error s1) eqn:Hf; [discriminate|].
      injection Hrun as -> <-. split; [reflexivity | by intros _ _].
    + injection Hrun as -> <-. split; [reflexivity | discriminate].
Qed.

End MoreTransactionFacts.

Lemma X15_outermost_closes_transaction_witness :
  TransactionUtil.transaction
    (snd (TransactionUtil.transactional "update_event" Sample.stale_update Sample.idle))
  = false.
Proof. apply X15_outermost_closes_transaction. reflexivity. Defined.

Lemma X16_success_means_committed_witness :
  exists s1,
    Sample.ok_update
      (if TransactionUtil.transaction Sample.idle then Sample.idle
       else TransactionUtil.begin Sample.idle) = (Ok 7, s1) /\
    (TransactionUtil.transaction Sample.idle = false ->
     TransactionUtil.transaction s1 = true ->
     TransactionUtil.flush_error s1 = None /\
     TransactionUtil.committed (TransactionUtil.begin Sample.idle)
       = TransactionUtil.committed s1).
Proof.
  apply (X16_success_means_committed "update_event" Sample.ok_update Sample.idle 7
           (TransactionUtil.committed (TransactionUtil.begin Sample.idle))).
  reflexivity.
Defined.

Section RetryOverTransactional.
Import TransactionUtil.
Context {A : Type}.
Variable max_retries : Z.
Variable backoff_sec : Q.
Hypothesis backoff_nonneg : (0 <= backoff_sec)%Q.

(** A run in which every attempt ends in the same conflict. *)
Lemma retry_loop_all_conflicts (op : Session -> result A * Session) (e0 : exn) :
  is_ConcurrencyException e0 = true ->
  (forall s, transaction s = false ->
     exists s2, op s = (Raise e0, s2) /\ transaction s2 = false) ->
  forall (n : nat) first s,
    1 <= first -> first + Z.of_nat n = max_retries -> transaction s = false ->
    exists s',
      retry_loop max_retries backoff_sec op (seqZ first (Z.of_nat (S n))) s =
        (Raise e0, s',
         (conflict_rounds backoff_sec first n
          ++ [Invoked max_retries; RolledBack])%list) /\
      transaction s' = false.
Proof.
  intros Hc Hop. induction n as [|n IH]; intros first s Hfirst Hsum Hs.
  - destruct (Hop s Hs) as (s2 & Hrun & Hs2).
    change (seqZ first (Z.of_nat 1)) with [first].
    rewrite retry_loop_step, Hrun, Hc.
    replace first with max_retries by lia. rewrite Z.eqb_refl.
    exists (rollback s2). split; [reflexivity | apply rollback_closed].
  - destruct (Hop s Hs) as (s2 & Hrun & Hs2).
    rewrite seqZ_cons by lia.
    replace (Z.pred (Z.of_nat (S (S n)))) with (Z.of_nat (S n)) by lia.
    replace (Z.succ first) with (first + 1) by lia.
    rewrite retry_loop_step, Hrun, Hc.
    destruct (Z.eqb_spec first max_retries) as [?|_]; [lia|].
    rewrite (sleep_ok_attempt backoff_sec backoff_nonneg) by exact Hfirst.
    destruct (IH (first + 1) (rollback s2)) as (s' & Hrest & Hs');
      [lia | lia | apply rollback_closed |].
    rewrite Hrest. exists s'. split; [|exact Hs'].
    rewrite (conflict_rounds_S backoff_sec), <- app_assoc. reflexivity.
Qed.

(** X17. The stack [@retry_conflicts @transactional] on an operation that
    meets a stale version on every attempt: called without an open
    transaction it tries [max_retries] times, waiting [backoff_sec]
    times the attempt number in between, then hands the caller the
    [ConcurrencyException], with no transaction left open. *)
Theorem X17_retry_exhausts_on_stale (name : string)
    (fn : Session -> result A * Session) (s : Session) :
  1 <= max_retries ->
  transaction s = false ->
  (forall s0, exists s1, fn s0 = (Raise StaleDataError, s1)) ->
  exists s',
    retry_conflicts max_retries backoff_sec (transactional name fn) s =
      (Raise (boundary_error name StaleDataError), s',
       (conflict_rounds backoff_sec 1 (Z.to_nat (max_retries - 1))
        ++ [Invoked max_retries; RolledBack])%list) /\
    transaction s' = false /\
    invocations (conflict_rounds backoff_sec 1 (Z.to_nat (max_retries - 1))
                 ++ [Invoked max_retries; RolledBack])%list
      = Z.to_nat max_retries.
Proof.
  intros Hn Hs Hstale.
  destruct (retry_loop_all_conflicts (transactional name fn)
              (boundary_error name StaleDataError) eq_refl) with
    (n := Z.to_nat (max_retries - 1)) (first := 1) (s := s)
    as (s' & Hrun & Hs'); [| lia | lia | exact Hs |].
  - intros s0 Hs0. destruct (Hstale (begin s0)) as [s1 Hfn].
    exists (rollback s1). split; [|apply rollback_closed].
    by rewrite transactional_outermost, Hfn.
  - exists s'. split; [|split; [exact Hs'|]].
    + unfold retry_conflicts, Py.range.
      replace (max_retries + 1 - 1) with (Z.of_nat (S (Z.to_nat (max_retries - 1))))
        by lia.
      exact Hrun.
    + rewrite invocations_app, invocations_rounds. cbn. lia.
Qed.

(** X18. Inside an open transaction the same stack does not retry: the
    inner boundary hands the [StaleDataError] on as it is, the retry
    wrapper does not recognise it, and the operation has run once. *)
Theorem X18_nested_stale_not_retried (name : string)
    (fn : Session -> result A * Session) (s s1 : Session) :
  1 <= max_retries ->
  transaction s = true ->
  fn s = (Raise StaleDataError, s1) ->
  retry_conflicts max_retries backoff_sec (transactional name fn) s
  = (Raise StaleDataError, s1, [Invoked 1]).
Proof.
  intros Hn Hs Hfn. unfold retry_conflicts, Py.range.
  rewrite seqZ_cons by lia. rewrite retry_loop_step.
  by rewrite transactional_nested, Hfn.
Qed.

End RetryOverTransactional.

Lemma X17_retry_exhausts_on_stale_witness :
  exists s',
    TransactionUtil.retry_conflicts 3 (1 # 10)
      (TransactionUtil.transactional "update_event" Sample.stale_update) Sample.idle =
      (Raise (TransactionUtil.boundary_error "update_event" StaleDataError), s',
       (TransactionUtil.conflict_rounds (1 # 10) 1 (Z.to_nat (3 - 1))
        ++ [TransactionUtil.Invoked 3; TransactionUtil.RolledBack])%list) /\
    TransactionUtil.transaction s' = false /\
    TransactionUtil.invocations
      (TransactionUtil.conflict_rounds (1 # 10) 1 (Z.to_nat (3 - 1))
       ++ [TransactionUtil.Invoked 3; TransactionUtil.RolledBack])%list
      = Z.to_nat 3.
Proof.
  apply (X17_retry_exhausts_on_stale 3 (1 # 10)).
  - unfold Qle. cbn. lia.
  - lia.
  - reflexivity.
  - intros s0. exists s0. reflexivity.
Defined.

Lemma X18_nested_stale_not_retried_witness :
  TransactionUtil.retry_conflicts 3 (1 # 10)
    (TransactionUtil.transactional "update_event" Sample.stale_update)
    (TransactionUtil.begin Sample.idle)
  = (Raise StaleDataError, TransactionUtil.begin Sample.idle,
     [TransactionUtil.Invoked 1]).
Proof.
  apply (X18_nested_stale_not_retried 3 (1 # 10) "update_event" Sample.stale_update).
  - lia.
  - reflexivity.
  - reflexivity.
Defined.

(* ===================================================================== *)
(** * More on the similarity search                                       *)
(* ===================================================================== *)

Section MoreEventRepoFacts.
Context {F P : Type} {FO : FloatOps F} {BE : Backend F P}.
Implicit Types (w : World F P) (q : list F) (e : Event F).

Lemma insert_nearer_perm q e (l : list (Event F)) :
  EventRepo.insert_nearer q e l ≡ₚ e :: l.
Proof.
  induction l as [|e' l IH]; [reflexivity|].
  cbn. destruct (EventRepo.nearer q e e'); [reflexivity|].
  rewrite IH. apply Permutation_swap.
Qed.

Lemma order_by_distance_perm q (rows : list (Event F)) :
  EventRepo.order_by_distance q rows ≡ₚ rows.
Proof.
  unfold EventRepo.order_by_distance.
  induction rows as [|e rows IH]; [reflexivity|].
  cbn [foldr]. by rewrite insert_nearer_perm, IH.
Qed.

Lemma search_result_is_prefix q k probes w res :
  fst (EventRepo.search_by_embedding q k probes w) = Ok res ->
  0 <= k /\
  res = take (Z.to_nat k)
          (EventRepo.order_by_distance q
             (List.filter EventRepo.has_embedding (events_table w))).
Proof.
  rewrite search_by_embedding_outcome. unfold EventRepo.limit.
  destruct (Z.ltb_spec k 0) as [?|Hk]; [discriminate|].
  intros [= <-]. by split.
Qed.

(** X7. Every event the search returns is a row of the events table and
    carries an embedding: rows without one are never returned. *)
Theorem X7_search_returns_embedded_rows q (k : Z) (probes : option Z) w res e :
  fst (EventRepo.search_by_embedding q k probes w) = Ok res ->
  In e res ->
  In e (events_table w) /\ embedding e <> None.
Proof.
  intros Hres Hin. apply search_result_is_prefix in Hres as [_ ->].
  apply list_elem_of_In, elem_of_take in Hin as (i & Hi & _).
  apply list_elem_of_lookup_2 in Hi.
  rewrite order_by_distance_perm in Hi.
  apply list_elem_of_In, filter_In in Hi as [Hrow Hemb].
  split; [exact Hrow|]. unfold EventRepo.has_embedding in Hemb.
  by destruct (embedding e).
Qed.



Section Ordered.
Variable q : list F.
Hypothesis cosine_total :
  forall a b, cosine_le q a b = true \/ cosine_le q b a = true.
Hypothesis cosine_trans :
  forall a b c, cosine_le q a b = true -> cosine_le q b c = true ->
                cosine_le q a c = true.






End Ordered.

(** X10. The search reads: the events table, the history, the requests
    sent and the provider are as before; all it changes is the probes
    setting of the index, and only when [probes] is given. *)
Theorem X10_search_is_read_only q (k : Z) (probes : option Z) w :
  let w' := snd (EventRepo.search_by_embedding q k probes w) in
  events_table w' = events_table w /\ history w' = history w /\
  sent w' = sent w /\ provider w' = provider w /\
  ivfflat_probes w' =
    match probes with Some p => Some p | None => ivfflat_probes w end.
Proof.
  unfold EventRepo.search_by_embedding, EventRepo.select_nearest, bind, read_events.
  destruct probes as [p|]; cbn;
    destruct (EventRepo.limit k _); cbn; repeat split; reflexivity.
Qed.

End MoreEventRepoFacts.

Lemma X7_search_returns_embedded_rows_witness :
  In (Sample.party (Some [1; 0; 0]%Q) 3)
     (events_table (Sample.world Scenario.parties 50)) /\
  embedding (Sample.party (Some [1; 0; 0]%Q) 3) <> None.
Proof.
  apply (X7_search_returns_embedded_rows [1; 0; 0]%Q 2 (Some 10)
           (Sample.world Scenario.parties 50)
           [Sample.party (Some [1; 0; 0]%Q) 3; Sample.party (Some [3; 4; 0]%Q) 1]).
  - vm_compute. reflexivity.
  - left. reflexivity.
Defined.





(* ===================================================================== *)
(** * More on the embedding service and the event text                    *)
(* ===================================================================== *)

Section MoreStringFacts.

Lemma lstrip_keeps_nonspace (a b : string) (c : ascii) :
  Py.isspace c = false ->
  exists d r, Py.lstrip (a ++ String c b) = String d r /\ Py.isspace d = false.
Proof.
  intros Hc. induction a as [|x a IH].
  - rewrite string_app_nil. exists c, b. by rewrite lstrip_fixed.
  - rewrite string_app_cons. cbn [Py.lstrip].
    destruct (Py.isspace x) eqn:Hx; [exact IH|]. eauto.
Qed.

(** A text that holds a character which is no whitespace is not blank. *)
Lemma strip_nonblank (a b : string) (c : ascii) :
  Py.isspace c = false -> Py.truthy (Py.strip (a ++ String c b)) = true.
Proof.
  intros Hc. unfold Py.strip.
  destruct (lstrip_keeps_nonspace a b c Hc) as (d & r & -> & Hd).
  destruct (rstrip_head d r Hd) as [r' ->]. reflexivity.
Qed.

(** The text of an event always holds a field separator. *)
Lemma format_event_has_separator {F} (e : Event F) :
  exists a b, format_event e = a ++ String "|" b.
Proof.
  unfold format_event. cbn [Py.join].
  eexists (_ ++ " "), _. rewrite string_app_assoc. reflexivity.
Qed.

End MoreStringFacts.

Section MoreEmbeddingFacts.
Context {F P : Type} {FO : FloatOps F} {BE : Backend F P}.
Variable cfg : Config F.
Implicit Types (self : Embedding.EmbeddingServiceImpl) (w : World F P).


(** X6. The text that [format_event] makes of an event is never blank, so
    [create_embedding] never refuses it as empty input: whatever error an
    embedding of an event text ends in, it is not the empty-input one. *)
Theorem X6_formatted_event_never_blank self (event : Event F) w e w' :
  Embedding.create_embedding cfg self (format_event event) w = (Raise e, w') ->
  Py.truthy (Py.strip (format_event event)) = true /\
  e <> EmbeddingServiceException "Input text must be a non-empty string." 500 None.
Proof.
  intros Hrun.
  assert (Hnb : Py.truthy (Py.strip (format_event event)) = true).
  { destruct (format_event_has_separator event) as (a & b & ->).
    by apply strip_nonblank. }
  split; [exact Hnb|].
  unfold Embedding.create_embedding in Hrun. rewrite Hnb in Hrun. cbn [negb] in Hrun.
  unfold bind, try in Hrun.
  destruct (client_embeddings_create _ w) as [[resp|e0] w1].
  - destruct (data resp) as [|item rest].
    + injection Hrun as <- <-. discriminate.
    + destruct (negb _).
      * injection Hrun as <- <-. intros Heq. injection Heq as Hmsg.
        discriminate Hmsg.
      * destruct (is_zero _); [|discriminate].
        injection Hrun as <- <-. discriminate.
  - injection Hrun as <- <-. discriminate.
Qed.

End MoreEmbeddingFacts.


Lemma X6_formatted_event_never_blank_witness :
  Py.truthy (Py.strip (format_event (Sample.party None 1))) = true /\
  EmbeddingServiceException "OpenAI embedding request failed." 500
    (Some (ProviderError "APIConnectionError"))
  <> EmbeddingServiceException "Input text must be a non-empty string." 500 None.
Proof.
  apply (X6_formatted_event_never_blank (BE := Sample.embedding_down) Sample.config
           Sample.embedder (Sample.party None 1) (Sample.world [] 50) _
           (Sample.world [] 50)).
  vm_compute. reflexivity.
Defined.

(* ===================================================================== *)
(** * The prompt endpoint                                                 *)
(* ===================================================================== *)

Section SessionKeyFacts.
Import PromptRoute.

Lemma colon_free_app_colon (a b : string) : colon_free (a ++ ":" ++ b) = false.
Proof.
  induction a as [|x a IH]; [reflexivity|].
  rewrite string_app_cons. cbn [colon_free]. rewrite IH. apply andb_false_r.
Qed.

Lemma colon_split (u1 u2 c1 c2 : string) :
  colon_free u1 = true -> colon_free u2 = true ->
  u1 ++ ":" ++ c1 = u2 ++ ":" ++ c2 -> u1 = u2 /\ c1 = c2.
Proof.
  change (":" ++ c1) with (String ":" c1). change (":" ++ c2) with (String ":" c2).
  revert u2. induction u1 as [|x u1 IH]; intros [|y u2] H1 H2 Heq.
  - change (String ":" c1 = String ":" c2) in Heq. by injection Heq as ->.
  - change (String ":" c1 = String y (u2 ++ String ":" c2)) in Heq.
    injection Heq as <- _. cbn in H2. discriminate.
  - change (String x (u1 ++ String ":" c1) = String ":" c2) in Heq.
    injection Heq as -> _. cbn in H1. discriminate.
  - rewrite !string_app_cons in Heq. injection Heq as -> Heq.
    cbn [colon_free] in H1, H2.
    apply andb_true_iff in H1 as [_ H1]. apply andb_true_iff in H2 as [_ H2].
    destruct (IH u2 H1 H2 Heq) as [-> ->]. by split.
Qed.

Lemma session_key_thread (user_id : string) (chat_id : option string) :
  session_key_of user_id chat_id =
  match thread_of chat_id with
  | Some c => user_id ++ ":" ++ c
  | None => user_id
  end.
Proof.
  unfold session_key_of, thread_of.
  destruct chat_id as [c|]; [|reflexivity]. by destruct (Py.truthy c).
Qed.

(** X20. For user ids without a colon, as the numeric ids that the login
    puts into the token, the session key tells users and chat threads
    apart: two requests get the same key only when the user is the same
    and the chat thread is the same. *)
Theorem X20_session_key_injective (u1 u2 : string) (c1 c2 : option string) :
  colon_free u1 = true -> colon_free u2 = true ->
  session_key_of u1 c1 = session_key_of u2 c2 ->
  u1 = u2 /\ thread_of c1 = thread_of c2.
Proof.
  intros H1 H2. rewrite !session_key_thread.
  destruct (thread_of c1) as [t1|], (thread_of c2) as [t2|]; intros Heq.
  - destruct (colon_split u1 u2 t1 t2 H1 H2 Heq) as [-> ->]. by split.
  - rewrite <- Heq, colon_free_app_colon in H2. discriminate.
  - rewrite Heq, colon_free_app_colon in H1. discriminate.
  - by split.
Qed.

End SessionKeyFacts.

Lemma X20_session_key_injective_witness :
  "7" = "7" /\ PromptRoute.thread_of (Some "") = PromptRoute.thread_of None.
Proof.
  apply (X20_session_key_injective "7" "7" (Some "") None); reflexivity.
Defined.

Section PromptRouteFacts.
Context {F P : Type} {FO : FloatOps F} {BE : Backend F P}.
Variable cfg : Config F.
Implicit Types (self : ModelService.ModelServiceImpl) (w : World F P).

(** Without a prompt, or with an empty one, the endpoint answers with
    [BadRequest] and nothing else happens. *)
Lemma prompt_required self (prompt : option string) (jwt_identity : string)
    (chat_id : option string) w :
  prompt = None \/ prompt = Some "" ->
  PromptRoute.get cfg self prompt jwt_identity chat_id w
  = (Raise (OtherError "BadRequest"), w).
Proof. intros [->| ->]; reflexivity. Qed.

(** X19. A prompt that is answered comes back with status 200 and the
    session key built from the caller's identity and chat id; the
    history of every other session is as it was before the request. *)
Theorem X19_prompt_touches_own_session_only self (prompt : option string)
    (jwt_identity : string) (chat_id : option string) w resp w' :
  PromptRoute.get cfg self prompt jwt_identity chat_id w = (Ok resp, w') ->
  PromptRoute.status resp = 200 /\
  PromptRoute.session_key resp = PromptRoute.session_key_of jwt_identity chat_id /\
  forall other,
    other <> PromptRoute.session_key resp ->
    fst (ChatHistory.get other (history w')) = fst (ChatHistory.get other (history w)).
Proof.
  unfold PromptRoute.get. destruct (negb (Py.truthy_opt prompt)); [discriminate|].
  unfold bind.
  pose proof (query_prompt_history cfg self (default "" prompt)
                (PromptRoute.session_key_of jwt_identity chat_id) w) as Hh.
  cbv zeta in Hh.
  destruct (ModelService.query_prompt cfg self (default "" prompt)
              (PromptRoute.session_key_of jwt_identity chat_id) w)
    as [[answer|e] w1]; [|discriminate].
  cbn [fst snd] in Hh. unfold ret. intros [= <- <-].
  cbn [PromptRoute.status PromptRoute.session_key].
  split; [reflexivity|]. split; [reflexivity|].
  intros other Hne. rewrite Hh.
  destruct (_ && _); [|reflexivity].
  unfold ChatHistory.get, ChatHistory.dict_get. cbn [fst].
  by rewrite !store_append_other.
Qed.

End PromptRouteFacts.

Lemma X19_prompt_touches_own_session_only_witness :
  200 = 200 /\
  "8:trip" = PromptRoute.session_key_of "8" (Some "trip") /\
  forall other,
    other <> "8:trip" ->
    fst (ChatHistory.get other
           (history (snd (PromptRoute.get (BE := Sample.healthy) Sample.config
                            Sample.service (Some "any jazz tonight?") "8" (Some "trip")
                            Scenario.talked))))
    = fst (ChatHistory.get other (history Scenario.talked)).
Proof.
  apply (X19_prompt_touches_own_session_only (BE := Sample.healthy) Sample.config
           Sample.service (Some "any jazz tonight?") "8" (Some "trip") Scenario.talked
           {| PromptRoute.answer := "none found";
              PromptRoute.session_key := "8:trip";
              PromptRoute.status := 200 |}).
  vm_compute. reflexivity.
Defined.

(* ===================================================================== *)
(** * The user service                                                    *)
(* ===================================================================== *)

Section UserServiceFacts.
Import TransactionUtil.
Context {repo : UserService.UserRepository}.

(** X21. Saving a user whose email is taken: called without an open
    transaction, the service raises [DuplicateEmailException] after one
    attempt, rolls the transaction back, and does not try again. *)
Theorem X21_save_duplicate_email (user taken : User) (s s1 : Session) :
  transaction s = false ->
  UserService.get_by_email (email user) (begin s) = (Ok (Some taken), s1) ->
  UserService.service_save user s
  = (Raise UserService.DuplicateEmailException, rollback s1, [Invoked 1]).
Proof.
  intros Hs Hget. unfold UserService.service_save, retry_conflicts, Py.range.
  rewrite seqZ_cons by lia. rewrite retry_loop_step.
  rewrite transactional_outermost by exact Hs.
  unfold UserService.save_body. rewrite Hget. reflexivity.
Qed.

(** X22. When the repository's [save] raises, a stale version included,
    the error leaves the service as [UserSaveException]: the retry
    wrapper sees no conflict, so the save is attempted once and the
    transaction is rolled back. *)
Theorem X22_save_error_not_retried (user : User) (e : exn) (s s1 s2 : Session) :
  transaction s = false ->
  UserService.get_by_email (email user) (begin s) = (Ok None, s1) ->
  UserService.save user s1 = (Raise e, s2) ->
  UserService.service_save user s
  = (Raise UserService.UserSaveException, rollback s2, [Invoked 1]).
Proof.
  intros Hs Hget Hsave. unfold UserService.service_save, retry_conflicts, Py.range.
  rewrite seqZ_cons by lia. rewrite retry_loop_step.
  rewrite transactional_outermost by exact Hs.
  unfold UserService.save_body. rewrite Hget, Hsave. reflexivity.
Qed.

(** X23. Deleting a user: when the id is unknown the service raises
    [UserNotFoundException], and when the repository's delete raises the
    error leaves as [UserDeleteException]; either way there is one
    attempt, no retry, and the transaction is rolled back. *)
Theorem X23_delete_failures_not_retried (user_id : Z) (s s1 : Session) :
  transaction s = false ->
  (UserService.get_by_id user_id (begin s) = (Ok None, s1) ->
   UserService.service_delete_by_id user_id s
   = (Raise UserService.UserNotFoundException, rollback s1, [Invoked 1])) /\
  (forall found e s2,
     UserService.get_by_id user_id (begin s) = (Ok (Some found), s1) ->
     UserService.delete_by_id user_id s1 = (Raise e, s2) ->
     UserService.service_delete_by_id user_id s
     = (Raise UserService.UserDeleteException, rollback s2, [Invoked 1])).
Proof.
  intros Hs. split.
  - intros Hget. unfold UserService.service_delete_by_id, retry_conflicts, Py.range.
    rewrite seqZ_cons by lia. rewrite retry_loop_step.
    rewrite transactional_outermost by exact Hs.
    unfold UserService.delete_by_id_body. rewrite Hget. reflexivity.
  - intros found e s2 Hget Hdel.
    unfold UserService.service_delete_by_id, retry_conflicts, Py.range.
    rewrite seqZ_cons by lia. rewrite retry_loop_step.
    rewrite transactional_outermost by exact Hs.
    unfold UserService.delete_by_id_body. rewrite Hget. cbn [UserService.validate_user].
    rewrite Hdel. reflexivity.
Qed.

End UserServiceFacts.

Lemma X23_delete_failures_not_retried_witness :
  UserService.service_delete_by_id (repo := Scenario.one_user) 4 Sample.idle
  = (Raise UserService.UserNotFoundException,
     TransactionUtil.rollback (TransactionUtil.begin Sample.idle),
     [TransactionUtil.Invoked 1]).
Proof.
  apply (proj1 (X23_delete_failures_not_retried (repo := Scenario.one_user) 4
                  Sample.idle (TransactionUtil.begin Sample.idle) eq_refl)).
  reflexivity.
Defined.

Lemma X21_save_duplicate_email_witness :
  UserService.service_save (repo := Scenario.one_user) Scenario.ana Sample.idle
  = (Raise UserService.DuplicateEmailException,
     TransactionUtil.rollback (TransactionUtil.begin Sample.idle),
     [TransactionUtil.Invoked 1]).
Proof.
  apply (X21_save_duplicate_email (repo := Scenario.one_user) Scenario.ana Scenario.ana);
    reflexivity.
Defined.

Lemma X22_save_error_not_retried_witness :
  UserService.service_save (repo := Scenario.stale_save) Scenario.ana Sample.idle
  = (Raise UserService.UserSaveException,
     TransactionUtil.rollback (TransactionUtil.begin Sample.idle),
     [TransactionUtil.Invoked 1]).
Proof.
  apply (X22_save_error_not_retried (repo := Scenario.stale_save) Scenario.ana
           StaleDataError Sample.idle (TransactionUtil.begin Sample.idle));
    reflexivity.
Defined.

(* ===================================================================== *)
(** * More on the query engine                                            *)
(* ===================================================================== *)

Section MoreStripFacts.

Lemma rstrip_cons_nonspace (c : ascii) (s : string) :
  Py.isspace c = false -> Py.rstrip (String c s) = String c (Py.rstrip s).
Proof.
  intros Hc. cbn [Py.rstrip]. destruct (Py.rstrip s); [by rewrite Hc | reflexivity].
Qed.

Lemma rstrip_app_nonspace (a b : string) (c : ascii) :
  Py.isspace c = false ->
  Py.rstrip (a ++ String c b) = a ++ Py.rstrip (String c b).
Proof.
  intros Hc. pose proof (rstrip_cons_nonspace c b Hc) as HR.
  induction a as [|x a IH]; [reflexivity|].
  rewrite !string_app_cons.
  change (Py.rstrip (String x (a ++ String c b)))
    with (match Py.rstrip (a ++ String c b) with
          | EmptyString =>
              if Py.isspace x then EmptyString else String x EmptyString
          | r => String x r
          end).
  rewrite IH, HR.
  destruct (a ++ String c (Py.rstrip b)) eqn:Ha; [|reflexivity].
  by apply string_app_nonempty in Ha.
Qed.

Lemma lstrip_strip (s : string) : Py.lstrip (Py.strip s) = Py.strip s.
Proof.
  unfold Py.strip. destruct (lstrip_head s) as [->|(c & r & -> & Hc)]; [reflexivity|].
  destruct (rstrip_head c r Hc) as [r' ->]. by apply lstrip_fixed.
Qed.

Lemma rstrip_strip (s : string) : Py.rstrip (Py.strip s) = Py.strip s.
Proof. unfold Py.strip. apply rstrip_idem. Qed.

Lemma prefix_app (m b : string) : String.prefix m (m ++ b) = true.
Proof.
  induction m as [|c m IH]; [by destruct b|].
  rewrite string_app_cons. cbn. destruct (ascii_dec c c); [exact IH | congruence].
Qed.

Lemma contains_app_mid (a m b : string) : Py.contains m (a ++ m ++ b) = true.
Proof.
  induction a as [|c a IH].
  - rewrite string_app_nil. destruct (m ++ b) eqn:Hmb.
    + cbn [Py.contains]. rewrite <- Hmb. by rewrite prefix_app.
    + cbn [Py.contains]. rewrite <- Hmb. by rewrite prefix_app.
  - rewrite string_app_cons. cbn [Py.contains]. rewrite IH. apply orb_true_r.
Qed.

End MoreStripFacts.

Section MoreModelServiceFacts.
Context {F P : Type} {FO : FloatOps F} {BE : Backend F P}.
Variable cfg : Config F.
Implicit Types (self : ModelService.ModelServiceImpl) (w : World F P).

(** X11. [build_messages] always gives two messages, the system message
    and then the user message with the prompt as it came, and the system
    text is trimmed; for an empty context the system text ends with the
    marker [no events retrieved]. *)
Theorem X11_build_messages_shape (sys : option string) (context user_prompt : string) :
  (exists system_text,
     ModelService.build_messages sys context user_prompt =
       [ChatHistory.message "system" system_text;
        ChatHistory.message "user" user_prompt] /\
     Py.strip system_text = system_text) /\
  ModelService.build_messages sys "" user_prompt =
    [ChatHistory.message "system"
       (Py.lstrip (Py.strip (Py.or_else sys "") ++ nl ++ nl) ++ "no events retrieved");
     ChatHistory.message "user" user_prompt].
Proof.
  split.
  - eexists. split; [reflexivity | apply strip_idem].
  - unfold ModelService.build_messages.
    change (Py.strip (Py.or_else (Some "") "no events retrieved"))
      with "no events retrieved".
    rewrite <- (string_app_assoc nl nl), <- string_app_assoc.
    rewrite strip_app_fixed by (try discriminate; reflexivity).
    reflexivity.
Qed.




(** The part of [query_prompt] that reads the history always returns. *)
Lemma recent_returns self (session_key : string) w :
  exists history_block count,
    (if Py.truthy session_key && ModelService.history_repo self then
       prior <- history_get (F:=F) (P:=P) session_key ;;
       let recent :=
         match prior with
         | [] => []
         | _ => Py.slice_from prior (- MAX_HISTORY_IN_CONTEXT cfg)
         end in
       let count := length recent in
       match recent with
       | [] => ret ("", count)
       | _ => ret (Py.join nl (ModelService.history_lines recent), count)
       end
     else ret ("", 0%nat)) w
    = (Ok (history_block, count),
       {| provider := provider w; sent := sent w; events_table := events_table w;
          ivfflat_probes := ivfflat_probes w; history := history w |}).
Proof.
  destruct (_ && _); [|destruct w; unfold ret; eauto].
  unfold bind, history_get, ChatHistory.get. cbv zeta.
  destruct (match ChatHistory.dict_get _ _ _ with [] => [] | _ => _ end);
    unfold ret; eauto.
Qed.

(** The completion request that [query_prompt] ends with, once the three
    earlier stages have returned. *)
Lemma query_prompt_answer_request self (user_prompt session_key : string)
    w vec w1 k w2 events w3 :
  Embedding.create_embedding cfg (ModelService.embedding_service self) user_prompt w
    = (Ok vec, w1) ->
  ModelService.extract_requested_event_count cfg self user_prompt w1 = (Ok k, w2) ->
  EventRepo.search_by_embedding vec k (Some 10) w2 = (Ok events, w3) ->
  exists history_block count,
    last (sent (snd (ModelService.query_prompt cfg self user_prompt session_key w)))
    = Some {| chat_model := ModelService.model self;
              chat_messages :=
                ModelService.build_messages (Some (ModelService.sys_prompt self))
                  (ModelService.combined_context
                     (Py.join nl (map format_event events)) history_block count)
                  user_prompt;
              chat_opts := delete "stream" (OPENAI_GEN_OPTS cfg) |}.
Proof.
  intros E1 E2 E3.
  destruct (recent_returns self session_key w3) as (hb & count & Hrecent).
  exists hb, count.
  unfold ModelService.query_prompt.
  unfold bind at 1. rewrite E1.
  unfold bind at 1. rewrite E2.
  unfold bind at 1. rewrite E3.
  unfold bind at 1.
  match goal with
  | |- context [(if ?c then ?a else ?b) w3] =>
      change ((if c then a else b) w3)
        with ((if Py.truthy session_key && ModelService.history_repo self then
                 prior <- history_get (F:=F) (P:=P) session_key ;;
                 let recent :=
                   match prior with
                   | [] => []
                   | _ => Py.slice_from prior (- MAX_HISTORY_IN_CONTEXT cfg)
                   end in
                 let count := length recent in
                 match recent with
                 | [] => ret ("", count)
                 | _ => ret (Py.join nl (ModelService.history_lines recent), count)
                 end
               else ret ("", 0%nat)) w3)
  end.
  rewrite Hrecent.
  apply (sent_after_answer _
           (fun resp => Py.strip (Py.or_else (ModelService.first_content resp "") ""))).
Qed.

End MoreModelServiceFacts.

Section QueryPromptRequests.
Context {F P : Type} {FO : FloatOps F} {BE : Backend F P}.
Variable cfg : Config F.
Implicit Types (self : ModelService.ModelServiceImpl) (w : World F P).




(** X13. An answer that [query_prompt] returns is trimmed: it has no
    whitespace at either end. *)
Theorem X13_answer_is_trimmed self (user_prompt session_key : string) w answer w' :
  ModelService.query_prompt cfg self user_prompt session_key w = (Ok answer, w') ->
  Py.strip answer = answer.
Proof.
  set (Q := fun rw : result string * World F P =>
              match fst rw with
              | Ok a => Py.strip a = a
              | Raise _ => True
              end).
  assert (HQ : Q (ModelService.query_prompt cfg self user_prompt session_key w)).
  { unfold ModelService.query_prompt.
    apply bind_elim; [intros; exact I|]. intros vec w1 _.
    apply bind_elim; [intros; exact I|]. intros k w2 _.
    apply bind_elim; [intros; exact I|]. intros events w3 _.
    apply bind_elim; [intros; exact I|]. intros [history_block count] w4 _.
    apply bind_elim; [intros; exact I|]. intros resp w5 _.
    unfold Q. destruct (_ && _); unfold bind, history_append, ret; cbn [fst];
      apply strip_idem. }
  intros Hrun. unfold Q in HQ. by rewrite Hrun in HQ.
Qed.

(** X14. When the search returns at least one event, the system message
    of the answer request holds a [DOCUMENTS:] block, with or without
    history. *)
Theorem X14_documents_block self (user_prompt session_key : string)
    w vec w1 k w2 event events w3 :
  Embedding.create_embedding cfg (ModelService.embedding_service self) user_prompt w
    = (Ok vec, w1) ->
  ModelService.extract_requested_event_count cfg self user_prompt w1 = (Ok k, w2) ->
  EventRepo.search_by_embedding vec k (Some 10) w2 = (Ok (event :: events), w3) ->
  exists req system_text,
    last (sent (snd (ModelService.query_prompt cfg self user_prompt session_key w)))
      = Some req /\
    ModelService.system_content req = Some system_text /\
    Py.contains ("DOCUMENTS:" ++ nl) system_text = true.
Proof.
  intros E1 E2 E3.
  destruct (query_prompt_answer_request cfg self user_prompt session_key
              w vec w1 k w2 (event :: events) w3 E1 E2 E3) as (hb & count & Hlast).
  eexists _, _. split; [exact Hlast|].
  split.
  { unfold ModelService.system_content, ModelService.build_messages.
    cbn [chat_messages]. unfold ChatHistory.message.
    rewrite lookup_insert_ne by discriminate. apply lookup_singleton_eq. }
  (* the documents text holds a separator, so it is not blank *)
  destruct (format_event_has_separator event) as (a & b & Hsep).
  assert (Hrag : exists z, Py.join nl (map format_event (event :: events))
                           = a ++ String "|" z).
  { cbn [map Py.join]. destruct (map format_event events) as [|e2 rest].
    - eauto.
    - rewrite Hsep, string_app_assoc, string_app_cons. eauto. }
  destruct Hrag as [z Hrag]. rewrite Hrag.
  assert (Hctx : exists z',
            ModelService.combined_context (a ++ String "|" z) hb count
            = ("DOCUMENTS:" ++ nl ++ a) ++ String "|" z').
  { unfold ModelService.combined_context.
    rewrite (strip_nonblank a z "|") by reflexivity.
    cbn [List.app]. destruct (Py.truthy hb); cbn [List.app Py.join].
    - eexists. rewrite !string_app_assoc, !string_app_cons. reflexivity.
    - eexists. rewrite !string_app_assoc. reflexivity. }
  destruct Hctx as [z' Hctx]. rewrite Hctx.
  rewrite or_else_some_empty.
  set (ctx := ("DOCUMENTS:" ++ nl ++ a) ++ String "|" z').
  assert (Hor : Py.or_else (Some ctx) "no events retrieved" = ctx).
  { subst ctx. rewrite !string_app_assoc. reflexivity. }
  rewrite Hor.
  assert (Hstrip : Py.strip ctx = ("DOCUMENTS:" ++ nl) ++ a ++ Py.rstrip (String "|" z')).
  { subst ctx. unfold Py.strip.
    replace (Py.lstrip (("DOCUMENTS:" ++ nl ++ a) ++ String "|" z'))
      with (("DOCUMENTS:" ++ nl ++ a) ++ String "|" z')
      by (rewrite !string_app_assoc; reflexivity).
    rewrite rstrip_app_nonspace by reflexivity.
    by rewrite !string_app_assoc. }
  rewrite <- (string_app_assoc nl nl), <- string_app_assoc.
  rewrite strip_app_fixed.
  - rewrite Hstrip. apply contains_app_mid.
  - rewrite Hstrip, string_app_assoc. discriminate.
  - apply lstrip_strip.
  - apply rstrip_strip.
Qed.

End QueryPromptRequests.

Lemma X13_answer_is_trimmed_witness : Py.strip "none found" = "none found".
Proof.
  apply (X13_answer_is_trimmed (BE := Sample.healthy) Sample.config Sample.service
           "any jazz tonight?" "session-1" (Sample.world [] 50) "none found"
           (snd (ModelService.query_prompt (BE := Sample.healthy) Sample.config
                   Sample.service "any jazz tonight?" "session-1"
                   (Sample.world [] 50)))).
  vm_compute. reflexivity.
Defined.

Lemma X14_documents_block_witness :
  exists req system_text,
    last (sent (snd (ModelService.query_prompt (BE := Sample.healthy)
                       Sample.config Sample.service "any jazz tonight?" "session-1"
                       (Sample.world Scenario.parties 50))))
      = Some req /\
    ModelService.system_content req = Some system_text /\
    Py.contains ("DOCUMENTS:" ++ nl) system_text = true.
Proof.
  pose (w0 := Sample.world Scenario.parties 50).
  pose (r1 := Embedding.create_embedding (BE := Sample.healthy) Sample.config
                (ModelService.embedding_service Sample.service) "any jazz tonight?" w0).
  pose (r2 := ModelService.extract_requested_event_count (BE := Sample.healthy)
                Sample.config Sample.service "any jazz tonight?" (snd r1)).
  pose (r3 := EventRepo.search_by_embedding [1; 0; 0]%Q 2 (Some 10) (snd r2)).
  apply (X14_documents_block (BE := Sample.healthy) Sample.config Sample.service
           "any jazz tonight?" "session-1" w0
           [1; 0; 0]%Q (snd r1) 2 (snd r2)
           (Sample.party (Some [1; 0; 0]%Q) 3) [Sample.party (Some [3; 4; 0]%Q) 1]
           (snd r3)).
  - vm_compute. reflexivity.
  - vm_compute. reflexivity.
  - vm_compute. reflexivity.
Defined.
